(** * PoseNet data module: a shallow embedding of [src/data/datamodule.py]

    The development follows the Python source top to bottom: the
    exceptions and integer operators the module relies on, the tensor
    operations used by [collate_fn], the dataset objects built by
    [DataModule.setup], and then the methods of [DataModule]
    themselves.  Theorems come after all definitions. *)

From Stdlib Require Import String DecimalString.
From Stdlib Require Import ZArith List Bool Lia Permutation.
Import ListNotations.
Local Open Scope string_scope.
Local Open Scope list_scope.
Local Open Scope Z_scope.

Set Implicit Arguments.

(** ** Python exceptions and results *)

(** The exception classes that can leave the methods of this file. *)
Inductive exn : Type :=
| RuntimeError (msg : string)
| ValueError (msg : string)
| IndexError (msg : string)
| OSError (msg : string)
| TypeError (msg : string)
| ZeroDivisionError.

(** The result of an operator or of a library call. *)
Inductive result (A : Type) : Type :=
| Ok (a : A)
| Err (e : exn).

Arguments Ok {A} a.
Arguments Err {A} e.

Definition bindR {A B : Type} (c : result A) (k : A -> result B) : result B :=
  match c with
  | Ok a => k a
  | Err e => Err e
  end.

Notation "'let?' x ':=' c 'in' k" := (bindR c (fun x => k))
  (at level 10, x pattern, c at level 100, k at level 200).

(** Where an exception that ends a method comes from: a [raise]
    statement written in [datamodule.py] itself, or an operator or
    library call the method invokes and whose exception it lets through. *)
Inductive origin : Type :=
| Explicit
| Propagated.

(** How a method ends. *)
Inductive outcome (A : Type) : Type :=
| Return (a : A)
| Raise (o : origin) (e : exn).

Arguments Return {A} a.
Arguments Raise {A} o e.

(** ** Tensors *)

(** The element type of a tensor, with the value an uninitialised cell
    of [torch.empty] happens to hold. *)
Class Dtype : Type := {
  elt : Type;
  uninit : elt
}.

(** A tensor is its size and its elements in row-major order. *)
Record Tensor {D : Dtype} : Type := mkTensor {
  shape : list Z;
  data : list elt
}.

Arguments mkTensor {D} shape data.

Definition numel (size : list Z) : Z := fold_right Z.mul 1 size.

(** Every tensor torch hands out has non-negative sizes and as many
    elements as its size says. *)
Definition wf_tensor {D : Dtype} (t : Tensor) : bool :=
  forallb (fun d => 0 <=? d) (shape t) && (Z.of_nat (length (data t)) =? numel (shape t)).

(** [torch.empty(size)] *)
Definition torch_empty {D : Dtype} (size : list Z) : Tensor :=
  mkTensor size (repeat uninit (Z.to_nat (numel size))).

(** [x[None, :]]: a new leading dimension of size one, then a full slice
    of the first dimension of [x], which a zero-dimensional [x] lacks. *)
Definition getitem_None_slice {D : Dtype} (x : Tensor) : result Tensor :=
  match shape x with
  | [] => Err (IndexError "too many indices for tensor of dimension 0")
  | _ :: _ => Ok (mkTensor (1 :: shape x) (data x))
  end.

(** [t[i]] for an integer [i], negative indices counting from the end. *)
Definition getitem_int {D : Dtype} (t : Tensor) (i : Z) : result Tensor :=
  match shape t with
  | [] => Err (IndexError "invalid index of a 0-dim tensor")
  | n :: s =>
      let j := if i <? 0 then i + n else i in
      if (0 <=? j) && (j <? n)
      then Ok (mkTensor s (firstn (Z.to_nat (numel s))
                                 (skipn (Z.to_nat (j * numel s)) (data t))))
      else Err (IndexError "index out of range")
  end.

(** torch.cat skips one-dimensional tensors of size [(0,)]. *)
Definition legacy_empty {D : Dtype} (t : Tensor) : bool :=
  match shape t with
  | [0] => true
  | _ => false
  end.

Definition dim0 {D : Dtype} (t : Tensor) : Z :=
  match shape t with
  | [] => 0
  | n :: _ => n
  end.

Definition same_trailing {D : Dtype} (s : list Z) (u : Tensor) : bool :=
  match shape u with
  | [] => false
  | _ :: s' => if list_eq_dec Z.eq_dec s' s then true else false
  end.

(** [torch.cat(tensors, dim=0)]: all tensors that are not skipped must
    agree on every size but the first; the result stacks their elements
    in argument order. *)
Definition torch_cat0 {D : Dtype} (tensors : list Tensor) : result Tensor :=
  match filter (fun t => negb (legacy_empty t)) tensors with
  | [] =>
      match tensors with
      | [] => Err (RuntimeError "torch.cat(): expected a non-empty list of Tensors")
      | t :: _ => Ok t
      end
  | t :: rest =>
      match shape t with
      | [] => Err (RuntimeError "zero-dimensional tensor cannot be concatenated")
      | n :: s =>
          if forallb (same_trailing s) rest
          then Ok (mkTensor (fold_left Z.add (map dim0 rest) n :: s)
                         (data t ++ concat (map data rest)))
          else Err (RuntimeError "Sizes of tensors must match except in dimension 0")
      end
  end.

(** ** [collate_fn] (datamodule.py, lines 68-74) *)

(** One item of the training dataset: [(x1, y1), (x2, y2)]. *)
Definition item {D : Dtype} : Type := ((Tensor * Tensor) * (Tensor * Tensor))%type.

(** The body of the [for] loop, threaded through the rest of the batch. *)
Fixpoint collate_loop {D : Dtype} (batch : list item) (images labels : Tensor)
  : result (Tensor * Tensor) :=
  match batch with
  | [] => Ok (images, labels)
  | ((x1, y1), (x2, y2)) :: rest =>
      let? x1' := getitem_None_slice x1 in
      let? x2' := getitem_None_slice x2 in
      let? images' := torch_cat0 [images; x1'; x2'] in
      let? y1' := getitem_None_slice y1 in
      let? y2' := getitem_None_slice y2 in
      let? labels' := torch_cat0 [labels; y1'; y2'] in
      collate_loop rest images' labels'
  end.

Definition collate_fn {D : Dtype} (batch : list item) : result (Tensor * Tensor) :=
  let images := torch_empty [0; 3; 256; 128] in
  let labels := torch_empty [0; 24; 64; 32] in
  collate_loop batch images labels.

(** ** Python integers *)

(** [a % b] and [a // b] on Python integers: both round towards minus
    infinity, and both raise on a zero divisor. *)
Definition py_mod (a b : Z) : result Z :=
  if b =? 0 then Err ZeroDivisionError else Ok (a mod b).

Definition py_floordiv (a b : Z) : result Z :=
  if b =? 0 then Err ZeroDivisionError else Ok (a / b).

(** [str(n)] as an f-string renders it. *)
Definition py_str (n : Z) : string := NilZero.string_of_int (Z.to_int n).

(** [l[a:b]] for [0 <= a]. *)
Definition py_slice {A : Type} (a b : nat) (l : list A) : list A :=
  firstn (b - a) (skipn a l).

(** ** Values and calls that live outside this file *)

(** Values the module only passes along: dataset samples, Python
    floats, albumentations pipelines, and arbitrary objects. *)
Class Opaque : Type := {
  Sample : Type;
  Float : Type;
  Compose : Type;
  Any : Type
}.

(** The seeded state of a [torch.Generator]. *)
Record Generator : Type := mkGenerator { initial_seed : Z }.

(** [torch.Generator().manual_seed(seed)] *)
Definition manual_seed (seed : Z) : Generator := mkGenerator seed.

(** Modelled from the spec: [BaseDataset], defined in
    [src/data/components/dataset.py] and known here by its use only, is
    "a fixed-size indexable collection" of samples.  Like every object
    below it carries the identity [id(...)] it was allocated with. *)
Record BaseDataset {O : Opaque} : Type := mkBaseDataset {
  bd_id : nat;
  bd_samples : list Sample
}.

Arguments mkBaseDataset {O} bd_id bd_samples.

(** [torch.utils.data.Subset] *)
Record Subset {O : Opaque} : Type := mkSubset {
  ss_id : nat;
  ss_dataset : BaseDataset;
  indices : list nat
}.

Arguments mkSubset {O} ss_id ss_dataset indices.

(** Modelled from the spec: [CervicalDataset], defined in
    [src/data/components/dataset.py] and known here by its use only, is
    one of the "three dataset wrappers (train/val/test)"; the object
    built by [CervicalDataset(dataset=..., mode=..., transform=...)]
    holds these three arguments. *)
Record CervicalDataset {O : Opaque} : Type := mkCervicalDataset {
  cd_id : nat;
  dataset : Subset;
  mode : string;
  transform : option Compose
}.

Arguments mkCervicalDataset {O} cd_id dataset mode transform.

(** What the interpreter and torch do on behalf of [setup]:
    - [randperm g n] is [torch.randperm(n, generator=g).tolist()];
    - [split_lengths lengths n] is the first half of [random_split], which
      turns the two entries of [lengths] into two subset lengths for a
      dataset of [n] samples (floating-point arithmetic), or fails;
    - [CervicalDataset_len d] is [len(d)], which decides [bool(d)]. *)
Class Library {O : Opaque} : Type := {
  randperm : Generator -> nat -> list nat;
  split_lengths : Float * Float -> nat -> result (nat * nat);
  CervicalDataset_len : CervicalDataset -> nat
}.

(** The part of the process state [setup] reads or writes besides
    [self]: the next fresh object identity, torch's global generator,
    and the samples [BaseDataset()] finds ([None] when it cannot read
    them). *)
Record World {O : Opaque} : Type := mkWorld {
  next_id : nat;
  default_generator : Generator;
  stored : option (list Sample)
}.

Arguments mkWorld {O} next_id default_generator stored.

(** ** The module object *)

(** [self.hparams], filled by [save_hyperparameters] from the arguments
    of [__init__]. *)
Record Hparams {O : Opaque} : Type := mkHparams {
  train_test_split : Float * Float;
  train_batch_size : Z;
  test_batch_size : Z;
  num_workers : Z;
  hp_train_transforms : option Compose;
  hp_test_transforms : option Compose;
  pin_memory : bool
}.

Arguments mkHparams {O} train_test_split train_batch_size test_batch_size num_workers
  hp_train_transforms hp_test_transforms pin_memory.

(** [self.trainer], as far as this file looks into it. *)
Record Trainer : Type := mkTrainer { world_size : Z }.

Record DataModule {O : Opaque} : Type := mkDataModule {
  hparams : Hparams;
  trainer : option Trainer;
  train_transforms : option Compose;
  test_transforms : option Compose;
  data_train : option CervicalDataset;
  data_val : option CervicalDataset;
  data_test : option CervicalDataset;
  train_batch_size_per_device : Z;
  test_batch_size_per_device : Z
}.

Arguments mkDataModule {O} hparams trainer train_transforms test_transforms
  data_train data_val data_test train_batch_size_per_device test_batch_size_per_device.

Definition set_data_train {O : Opaque} (v : option CervicalDataset) (m : DataModule) : DataModule :=
  mkDataModule (hparams m) (trainer m) (train_transforms m) (test_transforms m)
    v (data_val m) (data_test m)
    (train_batch_size_per_device m) (test_batch_size_per_device m).

Definition set_data_val {O : Opaque} (v : option CervicalDataset) (m : DataModule) : DataModule :=
  mkDataModule (hparams m) (trainer m) (train_transforms m) (test_transforms m)
    (data_train m) v (data_test m)
    (train_batch_size_per_device m) (test_batch_size_per_device m).

Definition set_data_test {O : Opaque} (v : option CervicalDataset) (m : DataModule) : DataModule :=
  mkDataModule (hparams m) (trainer m) (train_transforms m) (test_transforms m)
    (data_train m) (data_val m) v
    (train_batch_size_per_device m) (test_batch_size_per_device m).

Definition set_train_batch_size_per_device {O : Opaque} (v : Z) (m : DataModule) : DataModule :=
  mkDataModule (hparams m) (trainer m) (train_transforms m) (test_transforms m)
    (data_train m) (data_val m) (data_test m)
    v (test_batch_size_per_device m).

Definition set_test_batch_size_per_device {O : Opaque} (v : Z) (m : DataModule) : DataModule :=
  mkDataModule (hparams m) (trainer m) (train_transforms m) (test_transforms m)
    (data_train m) (data_val m) (data_test m)
    (train_batch_size_per_device m) v.

(** ** Methods as state transformers *)

(** A method runs on [self] and the world; an exception leaves both as
    they were when it was raised. *)
Record State {O : Opaque} : Type := mkState {
  self : DataModule;
  world : World
}.

Arguments mkState {O} self world.

Definition M {O : Opaque} (A : Type) : Type := State -> State * outcome A.

Definition ret {O : Opaque} {A : Type} (a : A) : M A := fun st => (st, Return a).

Definition bind {O : Opaque} {A B : Type} (c : M A) (k : A -> M B) : M B :=
  fun st =>
    match c st with
    | (st', Return a) => k a st'
    | (st', Raise o e) => (st', Raise o e)
    end.

Notation "x <- c ;; k" := (bind c (fun x => k))
  (at level 100, c at next level, right associativity).
Notation "c ;;; k" := (bind c (fun _ => k))
  (at level 100, right associativity).

(** [raise e], written in this file. *)
Definition raise {O : Opaque} {A : Type} (e : exn) : M A :=
  fun st => (st, Raise Explicit e).

(** An operator or library call that does not touch the state: its
    exception, if any, passes through the method. *)
Definition call {O : Opaque} {A : Type} (c : result A) : M A :=
  fun st =>
    match c with
    | Ok a => (st, Return a)
    | Err e => (st, Raise Propagated e)
    end.

Definition get_self {O : Opaque} : M DataModule := fun st => (st, Return (self st)).

Definition update_self {O : Opaque} (f : DataModule -> DataModule) : M unit :=
  fun st => (mkState (f (self st)) (world st), Return tt).

(** A fresh object identity. *)
Definition fresh_id {O : Opaque} : M nat :=
  fun st =>
    let w := world st in
    (mkState (self st) (mkWorld (S (next_id w)) (default_generator w) (stored w)),
     Return (next_id w)).

(** ** Building the dataset objects *)

(** [BaseDataset()] *)
Definition BaseDataset_new {O : Opaque} : M BaseDataset :=
  fun st =>
    match stored (world st) with
    | None => call (Err (OSError "BaseDataset: cannot read the samples")) st
    | Some samples => (i <- fresh_id ;; ret (mkBaseDataset i samples)) st
    end.

(** [Subset(dataset, indices)] *)
Definition Subset_new {O : Opaque} (ds : BaseDataset) (idx : list nat) : M Subset :=
  i <- fresh_id ;;
  ret (mkSubset i ds idx).

(** [CervicalDataset(dataset=ds, mode=md, transform=tf)] *)
Definition CervicalDataset_new {O : Opaque} (ds : Subset) (md : string) (tf : option Compose)
  : M CervicalDataset :=
  i <- fresh_id ;;
  ret (mkCervicalDataset i ds md tf).

(** [torch.utils.data.random_split(dataset, lengths, generator)] for a
    pair of lengths: resolve the lengths, check that they add up to
    [len(dataset)], draw one permutation of all indices from the
    generator, and cut it into consecutive pieces. *)
Definition random_split {O : Opaque} {L : Library}
    (ds : BaseDataset) (lengths : Float * Float) (generator : Generator)
  : M (Subset * Subset) :=
  ls <- call (split_lengths lengths (length (bd_samples ds))) ;;
  let '(l1, l2) := ls in
  if negb (l1 + l2 =? length (bd_samples ds))%nat
  then call (Err (ValueError
                    "Sum of input lengths does not equal the length of the input dataset!"))
  else
    let perm := randperm generator (l1 + l2) in
    s1 <- Subset_new ds (py_slice 0 l1 perm) ;;
    s2 <- Subset_new ds (py_slice l1 (l1 + l2) perm) ;;
    ret (s1, s2).

(** [bool(d)] for an attribute that holds [None] or a dataset: [None]
    is false, and a dataset is true unless its [len] is zero. *)
Definition truthy {O : Opaque} {L : Library} (d : option CervicalDataset) : bool :=
  match d with
  | None => false
  | Some ds => negb (CervicalDataset_len ds =? 0)%nat
  end.

(** ** [DataModule] (datamodule.py, lines 14-110) *)

(** [__init__]: a fresh module has no trainer attached. *)
Definition DataModule_init {O : Opaque}
    (train_test_split : Float * Float) (train_batch_size test_batch_size num_workers : Z)
    (train_transforms test_transforms : option Compose) (pin_memory : bool) : DataModule :=
  mkDataModule
    (mkHparams train_test_split train_batch_size test_batch_size num_workers
       train_transforms test_transforms pin_memory)
    None
    train_transforms test_transforms
    None None None
    train_batch_size test_batch_size.

(** The [num_classes] property. *)
Definition num_classes {O : Opaque} (m : DataModule) : Z := 23.

Definition prepare_data {O : Opaque} : M unit := ret tt.

Definition not_divisible_msg (batch_size devices : Z) : string :=
  ("Batch size (" ++ py_str batch_size ++ ") is not divisible by the number of devices ("
     ++ py_str devices ++ ").")%string.

(** Lines 51-57 of [setup]. *)
Definition adjust_batch_sizes {O : Opaque} : M unit :=
  m <- get_self ;;
  match trainer m with
  | None => ret tt
  | Some tr =>
      r <- call (py_mod (train_batch_size (hparams m)) (world_size tr)) ;;
      if negb (r =? 0)
      then raise (RuntimeError
                    (not_divisible_msg (train_batch_size (hparams m)) (world_size tr)))
      else
        q <- call (py_floordiv (train_batch_size (hparams m)) (world_size tr)) ;;
        update_self (set_train_batch_size_per_device q) ;;;
        q' <- call (py_floordiv (test_batch_size (hparams m)) (world_size tr)) ;;
        update_self (set_test_batch_size_per_device q')
  end.

(** Lines 60-65 of [setup]. *)
Definition load_datasets {O : Opaque} {L : Library} : M unit :=
  m <- get_self ;;
  if negb (truthy (data_train m)) && negb (truthy (data_val m)) && negb (truthy (data_test m))
  then
    ds <- BaseDataset_new ;;
    parts <- random_split ds (train_test_split (hparams m)) (manual_seed 42) ;;
    let '(trainset, testset) := parts in
    d1 <- CervicalDataset_new trainset "train" (train_transforms m) ;;
    update_self (set_data_train (Some d1)) ;;;
    d2 <- CervicalDataset_new testset "val" (test_transforms m) ;;
    update_self (set_data_val (Some d2)) ;;;
    d3 <- CervicalDataset_new testset "test" (test_transforms m) ;;
    update_self (set_data_test (Some d3))
  else ret tt.

Definition setup {O : Opaque} {L : Library} (stage : option string) : M unit :=
  adjust_batch_sizes ;;;
  load_datasets.

(** A [torch.utils.data.DataLoader], as the arguments it was built from. *)
Record DataLoader {O : Opaque} {D : Dtype} : Type := mkDataLoader {
  dl_dataset : option CervicalDataset;
  dl_batch_size : Z;
  dl_num_workers : Z;
  dl_pin_memory : bool;
  dl_shuffle : bool;
  dl_collate_fn : option (list item -> result (Tensor * Tensor))
}.

Arguments mkDataLoader {O D} dl_dataset dl_batch_size dl_num_workers dl_pin_memory
  dl_shuffle dl_collate_fn.

(** [RandomSampler(dataset)], which [DataLoader] builds when
    [shuffle=True]: it takes [len(dataset)] at once and wants it
    positive. *)
Definition RandomSampler_new {O : Opaque} {L : Library} (ds : option CervicalDataset)
  : result unit :=
  match ds with
  | None => Err (TypeError "object of type 'NoneType' has no len()")
  | Some d =>
      if (CervicalDataset_len d =? 0)%nat
      then Err (ValueError
                  "num_samples should be a positive integer value, but got num_samples=0")
      else Ok tt
  end.

(** The constructor [DataLoader(dataset=..., batch_size=..., num_workers=...,
    pin_memory=..., shuffle=..., collate_fn=...)]: it refuses a negative
    number of workers, then builds the sampler ([SequentialSampler], which
    checks nothing, unless [shuffle]), then the [BatchSampler], which
    refuses a batch size that is not positive. *)
Definition DataLoader_new {O : Opaque} {L : Library} {D : Dtype}
    (ds : option CervicalDataset) (batch_size num_workers : Z) (pin_memory shuffle : bool)
    (collate : option (list item -> result (Tensor * Tensor)))
  : result DataLoader :=
  if num_workers <? 0
  then Err (ValueError
              "num_workers option should be non-negative; use num_workers=0 to disable multiprocessing.")
  else
    let? _ := (if shuffle then RandomSampler_new ds else Ok tt) in
    if batch_size <=? 0
    then Err (ValueError
                ("batch_size should be a positive integer value, but got batch_size="
                   ++ py_str batch_size)%string)
    else Ok (mkDataLoader ds batch_size num_workers pin_memory shuffle collate).

Definition train_dataloader {O : Opaque} {L : Library} {D : Dtype} : M DataLoader :=
  m <- get_self ;;
  call (DataLoader_new (data_train m) (train_batch_size_per_device m)
          (num_workers (hparams m)) (pin_memory (hparams m)) true (Some collate_fn)).

Definition val_dataloader {O : Opaque} {L : Library} {D : Dtype} : M DataLoader :=
  m <- get_self ;;
  call (DataLoader_new (data_val m) (test_batch_size_per_device m)
          (num_workers (hparams m)) (pin_memory (hparams m)) false None).

Definition test_dataloader {O : Opaque} {L : Library} {D : Dtype} : M DataLoader :=
  m <- get_self ;;
  call (DataLoader_new (data_test m) (test_batch_size_per_device m)
          (num_workers (hparams m)) (pin_memory (hparams m)) false None).

(** The indices of the full dataset a loader draws its samples from. *)
Definition loader_indices {O : Opaque} {D : Dtype} (dl : DataLoader) : list nat :=
  match dl_dataset dl with
  | None => []
  | Some d => indices (dataset d)
  end.

Definition teardown {O : Opaque} (stage : option string) : M unit := ret tt.

(** A [Dict[Any, Any]], as its items. *)
Definition Dict {O : Opaque} : Type := list (Any * Any).

Definition state_dict {O : Opaque} : M Dict := ret [].

Definition load_state_dict {O : Opaque} (state_dict : Dict) : M unit := ret tt.

(** ** Vocabulary of the statements *)

Definition image_size : list Z := [3; 256; 128].
Definition heatmap_size : list Z := [24; 64; 32].

(** [t] is a tensor of size [size]. *)
Definition has_size {D : Dtype} (size : list Z) (t : Tensor) : Prop :=
  shape t = size /\ wf_tensor t = true.

(** An item made of two images and two heatmaps of the sizes the
    pipeline works with. *)
Definition item_ok {D : Dtype} (it : item) : Prop :=
  let '((x1, y1), (x2, y2)) := it in
  has_size image_size x1 /\ has_size heatmap_size y1 /\
  has_size image_size x2 /\ has_size heatmap_size y2.

(** The images, respectively the heatmaps, of a batch in input order. *)
Definition batch_images {D : Dtype} (batch : list item) : list Tensor :=
  flat_map (fun it : item => let '((x1, _), (x2, _)) := it in [x1; x2]) batch.

Definition batch_labels {D : Dtype} (batch : list item) : list Tensor :=
  flat_map (fun it : item => let '((_, y1), (_, y2)) := it in [y1; y2]) batch.

(** The same state with another configured evaluation batch size. *)
Definition with_test_batch_size {O : Opaque} (b : Z) (st : State) : State :=
  let m := self st in
  let h := hparams m in
  mkState
    (mkDataModule
       (mkHparams (train_test_split h) (train_batch_size h) b (num_workers h)
          (hp_train_transforms h) (hp_test_transforms h) (pin_memory h))
       (trainer m) (train_transforms m) (test_transforms m)
       (data_train m) (data_val m) (data_test m)
       (train_batch_size_per_device m) (test_batch_size_per_device m))
    (world st).

(** No partition attribute holds a non-empty dataset: the test of line 60. *)
Definition nothing_loaded {O : Opaque} {L : Library} (m : DataModule) : bool :=
  negb (truthy (data_train m)) && negb (truthy (data_val m)) && negb (truthy (data_test m)).

(** The indices of the full dataset behind a partition attribute. *)
Definition partition_indices {O : Opaque} (d : option CervicalDataset) : list nat :=
  match d with
  | None => []
  | Some ds => indices (dataset ds)
  end.

(** ** A concrete instance, used to run the definitions *)

(** Cells are integers; an uninitialised cell reads zero. *)
Definition ex_dtype : Dtype := {| elt := Z; uninit := 0 |}.

(** Samples are numbered, a float is given in thousandths, and a
    transform pipeline or an arbitrary object is given by its name. *)
Definition ex_opaque : Opaque :=
  {| Sample := nat; Float := Z; Compose := string; Any := string |}.

(** A generator that rotates the identity by its seed. *)
Definition ex_randperm (g : Generator) (n : nat) : list nat :=
  let k := Z.to_nat (initial_seed g mod Z.of_nat n) in
  skipn k (seq 0 n) ++ firstn k (seq 0 n).

(** Fractions that add up to one are turned into lengths by rounding
    down and handing the remainder out in turn; anything else is taken
    as two lengths. *)
Definition ex_split_lengths (lengths : Z * Z) (n : nat) : result (nat * nat) :=
  let '(a, b) := lengths in
  if a + b =? 1000
  then
    if (a <? 0) || (1000 <? a) || (b <? 0) || (1000 <? b)
    then Err (ValueError "Fraction is not between 0 and 1")
    else
      let n1 := Z.to_nat (Z.of_nat n * a / 1000) in
      let n2 := Z.to_nat (Z.of_nat n * b / 1000) in
      let r := (n - (n1 + n2))%nat in
      Ok (n1 + (r - r / 2), n2 + r / 2)%nat
  else Ok (Z.to_nat (a / 1000), Z.to_nat (b / 1000)).

(** A dataset wrapper is as long as the partition it wraps. *)
Definition ex_library : @Library ex_opaque :=
  {| randperm := ex_randperm;
     split_lengths := ex_split_lengths : @Float ex_opaque * @Float ex_opaque -> _;
     CervicalDataset_len := fun d : @CervicalDataset ex_opaque => length (indices (dataset d)) |}.

(** The module of the default configuration, with named pipelines. *)
Definition ex_module (train_bs test_bs : Z) : @DataModule ex_opaque :=
  @DataModule_init ex_opaque (900, 100) train_bs test_bs 4
    (Some "train_aug") (Some "test_aug") false.

(** The same module once a trainer is attached to it. *)
Definition with_trainer {O : Opaque} (tr : Trainer) (m : DataModule) : DataModule :=
  mkDataModule (hparams m) (Some tr) (train_transforms m) (test_transforms m)
    (data_train m) (data_val m) (data_test m)
    (train_batch_size_per_device m) (test_batch_size_per_device m).

(** A process whose dataset directory holds [n] samples. *)
Definition ex_world (n : nat) : @World ex_opaque :=
  @mkWorld ex_opaque 100%nat (manual_seed 7) (Some (seq 0 n)).

Definition ex_state (train_bs test_bs devices : Z) (n : nat) : @State ex_opaque :=
  mkState (with_trainer (mkTrainer devices) (ex_module train_bs test_bs)) (ex_world n).

(** Another process, another configuration, no trainer, the same [n] samples. *)
Definition ex_other_state (n : nat) : @State ex_opaque :=
  mkState (ex_module 16 8) (@mkWorld ex_opaque 7%nat (manual_seed 99) (Some (seq 0 n))).

(** The states the example processes are in after [setup], and after a
    second [setup] where the directory holds no sample. *)
Definition ex_loaded_state : @State ex_opaque :=
  Eval vm_compute in fst (@setup ex_opaque ex_library None (ex_state 32 64 4 10)).

Definition ex_other_loaded_state : @State ex_opaque :=
  Eval vm_compute in fst (@setup ex_opaque ex_library (Some "fit") (ex_other_state 10)).

Definition ex_empty_loaded_state : @State ex_opaque :=
  Eval vm_compute in fst (@setup ex_opaque ex_library None (ex_state 32 64 4 0)).

Definition ex_empty_reloaded_state : @State ex_opaque :=
  Eval vm_compute in fst (@setup ex_opaque ex_library None ex_empty_loaded_state).

(** A tensor given by its size and its cells. *)
Definition ex_tensor (size : list Z) (cells : list Z) : @Tensor ex_dtype :=
  @mkTensor ex_dtype size cells.

(** A tensor of the given size filled with one value. *)
Definition ex_full (size : list Z) (v : Z) : @Tensor ex_dtype :=
  @mkTensor ex_dtype size (repeat v (Z.to_nat (numel size))).

Definition ex_batch : list (@item ex_dtype) :=
  [ ((ex_full image_size 1, ex_full heatmap_size 2),
     (ex_full image_size 3, ex_full heatmap_size 4));
    ((ex_full image_size 5, ex_full heatmap_size 6),
     (ex_full image_size 7, ex_full heatmap_size 8)) ].

(** ** The landmark overlay of [main] (datamodule.py, lines 123-125) *)

(** How [np.argmax] compares cells: [cell_gtb a b] holds when [a] takes
    the place of the running maximum [b], that is when [a > b], or when
    [a] is NaN and [b] is not. *)
Class Comparable {D : Dtype} : Type := {
  cell_gtb : elt -> elt -> bool
}.

(** The scan of [np.argmax]: [best] is the largest cell so far, found
    at position [best_i], and [i] is the position of the next cell. *)
Fixpoint argmax_scan {D : Dtype} {C : Comparable}
    (cells : list elt) (best : elt) (best_i i : Z) : Z :=
  match cells with
  | [] => best_i
  | y :: rest =>
      if cell_gtb y best
      then argmax_scan rest y i (i + 1)
      else argmax_scan rest best best_i (i + 1)
  end.

(** [np.argmax(a)] on the flattened cells of [a]: the position of the
    first maximum. *)
Definition np_argmax {D : Dtype} {C : Comparable} (cells : list elt) : result Z :=
  match cells with
  | [] => Err (ValueError "attempt to get argmax of an empty sequence")
  | x :: rest => Ok (argmax_scan rest x 0 1)
  end.

(** [np.unravel_index(k, size)] in row-major order. *)
Definition np_unravel_index (k : Z) (size : list Z) : result (list Z) :=
  if (0 <=? k) && (k <? numel size)
  then Ok (snd (fold_right
                  (fun d acc => (fst acc / d, fst acc mod d :: snd acc))
                  (k, []) size))
  else Err (ValueError "index is out of bounds for array").

(** [range(n)] *)
Definition py_range (n : Z) : list Z := map Z.of_nat (seq 0 (Z.to_nat n)).

(** Lines 124-125 for one channel [h = heatmap[i]]: the centre
    [(idx[1]*4, idx[0]*4)] handed to [cv2.circle]. *)
Definition landmark_center {D : Dtype} {C : Comparable} (h : Tensor) : result (Z * Z) :=
  let? k := np_argmax (data h) in
  let? idx := np_unravel_index k (shape h) in
  match idx with
  | r :: c :: _ => Ok (c * 4, r * 4)
  | _ => Err (IndexError "tuple index out of range")
  end.

(** The [for] loop of line 123 over the given channels, as the centres
    of the circles it draws, in drawing order. *)
Fixpoint landmark_loop {D : Dtype} {C : Comparable} (heatmap : Tensor) (channels : list Z)
  : result (list (Z * Z)) :=
  match channels with
  | [] => Ok []
  | i :: rest =>
      let? h := getitem_int heatmap i in
      let? p := landmark_center h in
      let? ps := landmark_loop heatmap rest in
      Ok (p :: ps)
  end.

(** Lines 123-125: [heatmap.shape[0]] channels, one circle each. *)
Definition landmark_centers {D : Dtype} {C : Comparable} (heatmap : Tensor)
  : result (list (Z * Z)) :=
  match shape heatmap with
  | [] => Err (IndexError "tuple index out of range")
  | n :: _ => landmark_loop heatmap (py_range n)
  end.

(** ** More vocabulary *)

(** What the loop computes for channel [i] of a heatmap of [h] rows and
    [w] columns: the position [k] of the first maximum of the channel,
    drawn at column [k mod w] and row [k / w], four pixels per cell. *)
Definition channel_center {D : Dtype} {C : Comparable}
    (heatmap : Tensor) (h w : Z) (i : nat) (p : Z * Z) : Prop :=
  exists ch k,
    getitem_int heatmap (Z.of_nat i) = Ok ch /\
    np_argmax (data ch) = Ok k /\
    0 <= k < h * w /\ Z.of_nat (length (data ch)) = h * w /\
    p = (k mod w * 4, k / w * 4).

(** An item whose four tensors have the sizes hardcoded in [collate_fn]. *)
Definition item_sizes_ok {D : Dtype} (it : item) : Prop :=
  let '((x1, y1), (x2, y2)) := it in
  shape x1 = image_size /\ shape y1 = heatmap_size /\
  shape x2 = image_size /\ shape y2 = heatmap_size.

(** ** More of the concrete instance *)

(** Integer cells compare as integers. *)
Definition ex_comparable : @Comparable ex_dtype :=
  @Build_Comparable ex_dtype (Z.gtb : @elt ex_dtype -> @elt ex_dtype -> bool).

(** A process that cannot read its dataset directory. *)
Definition ex_unreadable_state : @State ex_opaque :=
  mkState (with_trainer (mkTrainer 4) (ex_module 32 50))
    (@mkWorld ex_opaque 100%nat (manual_seed 7) None).

(** Two channels of two rows and three columns. *)
Definition ex_heatmap : @Tensor ex_dtype :=
  ex_tensor [2; 2; 3] [1; 5; 2; 0; 3; 4; 9; 1; 1; 2; 9; 2].

(** One channel without rows. *)
Definition ex_flat_heatmap : @Tensor ex_dtype := ex_tensor [1; 0; 3] [].

(** * Theorems *)

Unset Implicit Arguments.

(** ** The operators and tensor calls on small inputs *)

Example py_floordiv_rounds_down : py_floordiv 50 4 = Ok 12 /\ py_floordiv (-7) 2 = Ok (-4).
Proof. split; reflexivity. Qed.

Example py_mod_zero_divisor : py_mod 32 0 = Err ZeroDivisionError.
Proof. reflexivity. Qed.

Example not_divisible_msg_32_3 :
  not_divisible_msg 32 3 = "Batch size (32) is not divisible by the number of devices (3).".
Proof. reflexivity. Qed.

Example torch_cat0_stacks :
  torch_cat0 [ex_tensor [0; 2] []; ex_tensor [1; 2] [10; 11]; ex_tensor [1; 2] [20; 21]]
  = Ok (ex_tensor [2; 2] [10; 11; 20; 21]).
Proof. reflexivity. Qed.

Example getitem_int_last :
  getitem_int (ex_tensor [2; 2] [10; 11; 20; 21]) (-1) = Ok (ex_tensor [2] [20; 21]).
Proof. reflexivity. Qed.

(** An item of another size than the hardcoded one makes [torch.cat] fail. *)
Example collate_fn_wrong_size :
  collate_fn
    [((ex_tensor [1; 2] [1; 2], ex_tensor [1; 1] [3]),
      (ex_tensor [1; 2] [4; 5], ex_tensor [1; 1] [6]))]
  = Err (RuntimeError "Sizes of tensors must match except in dimension 0").
Proof. reflexivity. Qed.

(** ** Lists cut into blocks *)

Lemma block_at {A : Type} (k : nat) (blocks : list (list A)) :
  Forall (fun l => length l = k) blocks ->
  forall i b, nth_error blocks i = Some b ->
  firstn k (skipn (i * k) (concat blocks)) = b.
Proof.
  induction 1 as [|x l Hx Hl IH]; intros [|i] b Hb; simpl in Hb; try discriminate.
  - injection Hb as <-. simpl.
    rewrite firstn_app, Hx, Nat.sub_diag, firstn_O, app_nil_r.
    rewrite <- Hx. apply firstn_all.
  - cbn [concat].
    rewrite skipn_app, skipn_all2 by (rewrite Hx; simpl; lia).
    replace (S i * k - length x)%nat with (i * k)%nat by (rewrite Hx; simpl; lia).
    simpl. now apply IH.
Qed.

(** ** [collate_fn] *)

Section TensorFacts.
Context {D : Dtype}.

Lemma tensor_eta (t : Tensor) : mkTensor (shape t) (data t) = t.
Proof. now destruct t. Qed.

Lemma wf_tensor_length (t : Tensor) :
  wf_tensor t = true -> length (data t) = Z.to_nat (numel (shape t)).
Proof.
  unfold wf_tensor. rewrite andb_true_iff, Z.eqb_eq. intros [_ H]. lia.
Qed.

Lemma torch_cat0_three (t a b : Tensor) (n d : Z) (s : list Z) :
  shape t = n :: d :: s -> shape a = 1 :: d :: s -> shape b = 1 :: d :: s ->
  torch_cat0 [t; a; b] =
  Ok (mkTensor ((n + 1 + 1) :: d :: s) (data t ++ data a ++ data b)).
Proof.
  intros Ht Ha Hb. unfold torch_cat0, legacy_empty. cbn [filter].
  rewrite Ht, Ha, Hb.
  assert (Hn : match n :: d :: s with [0] => true | _ => false end = false)
    by (destruct n; reflexivity).
  rewrite Hn. cbn [negb]. rewrite Ht.
  unfold same_trailing, dim0. cbn [forallb map fold_left concat]. rewrite Ha, Hb.
  destruct (list_eq_dec Z.eq_dec (d :: s) (d :: s)) as [_|F]; [|congruence].
  cbn [andb]. now rewrite app_nil_r.
Qed.

Lemma getitem_None_slice_ok (x : Tensor) (d : Z) (s : list Z) :
  shape x = d :: s -> getitem_None_slice x = Ok (mkTensor (1 :: d :: s) (data x)).
Proof. intros H. unfold getitem_None_slice. now rewrite H. Qed.

(** The loop appends, to each accumulator, the elements of the tensors
    of the batch in input order. *)
Lemma collate_loop_spec (di dl : Z) (si sl : list Z) :
  forall (batch : list item) (images labels : Tensor) (n m : Z),
  shape images = n :: di :: si -> shape labels = m :: dl :: sl ->
  Forall (fun it : item =>
            let '((x1, y1), (x2, y2)) := it in
            shape x1 = di :: si /\ shape y1 = dl :: sl /\
            shape x2 = di :: si /\ shape y2 = dl :: sl) batch ->
  collate_loop batch images labels =
  Ok (mkTensor ((n + 2 * Z.of_nat (length batch)) :: di :: si)
        (data images ++ concat (map data (batch_images batch))),
      mkTensor ((m + 2 * Z.of_nat (length batch)) :: dl :: sl)
        (data labels ++ concat (map data (batch_labels batch)))).
Proof.
  induction batch as [|[[x1 y1] [x2 y2]] rest IH]; intros images labels n m Hi Hl Hall.
  - cbn. rewrite !app_nil_r, !Z.add_0_r, <- Hi, <- Hl. now rewrite !tensor_eta.
  - inversion Hall as [|? ? Hhd Hrest]; subst.
    cbn in Hhd. destruct Hhd as (Hx1 & Hy1 & Hx2 & Hy2).
    cbn [collate_loop].
    rewrite (getitem_None_slice_ok x1 _ _ Hx1), (getitem_None_slice_ok x2 _ _ Hx2). cbn [bindR].
    rewrite torch_cat0_three with (n := n) (d := di) (s := si) by (assumption || reflexivity). cbn [bindR].
    rewrite (getitem_None_slice_ok y1 _ _ Hy1), (getitem_None_slice_ok y2 _ _ Hy2). cbn [bindR].
    rewrite torch_cat0_three with (n := m) (d := dl) (s := sl) by (assumption || reflexivity). cbn [bindR].
    rewrite IH with (n := n + 1 + 1) (m := m + 1 + 1) by (assumption || reflexivity).
    cbn [shape data batch_images batch_labels flat_map map concat app length].
    fold (batch_images rest) (batch_labels rest). rewrite <- !app_assoc.
    replace (n + 1 + 1 + 2 * Z.of_nat (length rest)) with (n + 2 * Z.of_nat (S (length rest))) by lia.
    replace (m + 1 + 1 + 2 * Z.of_nat (length rest)) with (m + 2 * Z.of_nat (S (length rest))) by lia.
    reflexivity.
Qed.

(** Indexing a stack of equally sized tensors returns the tensor at that position. *)
Lemma getitem_int_block (t : Tensor) (n : Z) (s : list Z) (blocks : list Tensor) (i : nat) (b : Tensor) :
  shape t = n :: s ->
  data t = concat (map data blocks) ->
  Forall (has_size s) blocks ->
  nth_error blocks i = Some b ->
  Z.of_nat i < n ->
  getitem_int t (Z.of_nat i) = Ok b.
Proof.
  intros Ht Hd Hall Hb Hlt.
  assert (Hbs : has_size s b).
  { rewrite Forall_forall in Hall. apply Hall. eapply nth_error_In; eassumption. }
  destruct Hbs as [Hshape Hwf].
  pose proof (wf_tensor_length b Hwf) as Hlen. rewrite Hshape in Hlen.
  assert (Hnum : 0 <= numel s).
  { unfold wf_tensor in Hwf. rewrite andb_true_iff, Z.eqb_eq, Hshape in Hwf. lia. }
  unfold getitem_int. rewrite Ht.
  replace (Z.of_nat i <? 0) with false by (symmetry; apply Z.ltb_ge; lia).
  replace (0 <=? Z.of_nat i) with true by (symmetry; apply Z.leb_le; lia).
  replace (Z.of_nat i <? n) with true by (symmetry; apply Z.ltb_lt; lia).
  cbn [andb]. f_equal.
  rewrite <- (tensor_eta b), Hshape. f_equal.
  rewrite Hd, Z2Nat.inj_mul, Nat2Z.id by lia.
  apply block_at.
  - rewrite Forall_forall in *. intros l Hl.
    apply in_map_iff in Hl. destruct Hl as (u & <- & Hu).
    destruct (Hall u Hu) as [Hsu Hwu].
    rewrite (wf_tensor_length u Hwu), Hsu. reflexivity.
  - now rewrite nth_error_map, Hb.
Qed.

Lemma batch_positions (batch : list item) :
  forall i x1 y1 x2 y2, nth_error batch i = Some ((x1, y1), (x2, y2)) ->
  nth_error (batch_images batch) (2 * i) = Some x1 /\
  nth_error (batch_images batch) (2 * i + 1) = Some x2 /\
  nth_error (batch_labels batch) (2 * i) = Some y1 /\
  nth_error (batch_labels batch) (2 * i + 1) = Some y2.
Proof.
  induction batch as [|[[a1 b1] [a2 b2]] rest IH]; intros [|i] x1 y1 x2 y2 H;
    simpl in H; try discriminate.
  - injection H as -> -> -> ->. repeat split; reflexivity.
  - replace (2 * S i)%nat with (S (S (2 * i))) by lia.
    replace (S (S (2 * i)) + 1)%nat with (S (S (2 * i + 1))) by lia.
    apply (IH i x1 y1 x2 y2 H).
Qed.

Lemma batch_sizes (batch : list item) :
  Forall item_ok batch ->
  Forall (has_size image_size) (batch_images batch) /\
  Forall (has_size heatmap_size) (batch_labels batch).
Proof.
  induction 1 as [|[[x1 y1] [x2 y2]] rest (Hx1 & Hy1 & Hx2 & Hy2) _ [IHi IHl]].
  - split; constructor.
  - split;
      [change (Forall (has_size image_size) (x1 :: x2 :: batch_images rest))
      |change (Forall (has_size heatmap_size) (y1 :: y2 :: batch_labels rest))];
      repeat (apply Forall_cons; [assumption|]); assumption.
Qed.

End TensorFacts.

(** C1: for a batch of N items whose images have size 3x256x128 and
    whose heatmaps have size 24x64x32, [collate_fn] returns an image
    tensor of size (2N, 3, 256, 128) and a heatmap tensor of size
    (2N, 24, 64, 32), and the two members of the i-th item sit at the
    batch positions 2i and 2i+1. *)
Theorem collate_fn_stacks_pairs {D : Dtype} (batch : list item) :
  Forall item_ok batch ->
  exists images labels : Tensor,
    collate_fn batch = Ok (images, labels) /\
    shape images = [2 * Z.of_nat (length batch); 3; 256; 128] /\
    shape labels = [2 * Z.of_nat (length batch); 24; 64; 32] /\
    forall i x1 y1 x2 y2, nth_error batch i = Some ((x1, y1), (x2, y2)) ->
      getitem_int images (2 * Z.of_nat i) = Ok x1 /\
      getitem_int images (2 * Z.of_nat i + 1) = Ok x2 /\
      getitem_int labels (2 * Z.of_nat i) = Ok y1 /\
      getitem_int labels (2 * Z.of_nat i + 1) = Ok y2.
Proof.
  intros Hall. unfold collate_fn.
  rewrite collate_loop_spec
    with (n := 0) (m := 0) (di := 3) (si := [256; 128]) (dl := 24) (sl := [64; 32]).
  2, 3: reflexivity.
  2: { eapply Forall_impl; [|exact Hall].
       intros [[x1 y1] [x2 y2]] (Hx1 & Hy1 & Hx2 & Hy2).
       repeat split; (apply Hx1 || apply Hy1 || apply Hx2 || apply Hy2). }
  eexists _, _. split; [reflexivity|]. cbn [shape].
  split; [f_equal; lia|]. split; [f_equal; lia|].
  intros i x1 y1 x2 y2 Hi.
  destruct (batch_sizes batch Hall) as [Himg Hlbl].
  destruct (batch_positions batch i x1 y1 x2 y2 Hi) as (P1 & P2 & P3 & P4).
  assert (Hlt : (i < length batch)%nat) by (apply nth_error_Some; congruence).
  replace (2 * Z.of_nat i) with (Z.of_nat (2 * i)) by lia.
  replace (Z.of_nat (2 * i) + 1) with (Z.of_nat (2 * i + 1)) by lia.
  repeat split.
  - eapply getitem_int_block with (blocks := batch_images batch) (s := image_size);
      [reflexivity | reflexivity | assumption | assumption | lia].
  - eapply getitem_int_block with (blocks := batch_images batch) (s := image_size);
      [reflexivity | reflexivity | assumption | assumption | lia].
  - eapply getitem_int_block with (blocks := batch_labels batch) (s := heatmap_size);
      [reflexivity | reflexivity | assumption | assumption | lia].
  - eapply getitem_int_block with (blocks := batch_labels batch) (s := heatmap_size);
      [reflexivity | reflexivity | assumption | assumption | lia].
Qed.

Lemma ex_full_wf (size : list Z) (v : Z) :
  forallb (fun d => 0 <=? d) size = true -> 0 <= numel size ->
  @wf_tensor ex_dtype (ex_full size v) = true.
Proof.
  intros Hdims Hnum. unfold wf_tensor, ex_full. cbn [shape data].
  rewrite Hdims, repeat_length, Z2Nat.id by assumption.
  now rewrite Z.eqb_refl.
Qed.

Lemma ex_full_has_size (size : list Z) (v : Z) :
  forallb (fun d => 0 <=? d) size = true -> 0 <= numel size ->
  @has_size ex_dtype size (ex_full size v).
Proof. intros H1 H2. split; [reflexivity | now apply ex_full_wf]. Qed.

Lemma ex_batch_ok : Forall (@item_ok ex_dtype) ex_batch.
Proof.
  assert (Hi : forall v, @has_size ex_dtype image_size (ex_full image_size v))
    by (intros v; apply ex_full_has_size; [reflexivity | discriminate]).
  assert (Hh : forall v, @has_size ex_dtype heatmap_size (ex_full heatmap_size v))
    by (intros v; apply ex_full_has_size; [reflexivity | discriminate]).
  unfold ex_batch.
  repeat (apply Forall_cons;
          [unfold item_ok;
           repeat (match goal with |- _ /\ _ => split end); (apply Hi || apply Hh)|]).
  apply Forall_nil.
Qed.

Lemma collate_fn_stacks_pairs_witness :
  exists images labels : @Tensor ex_dtype,
    collate_fn ex_batch = Ok (images, labels) /\
    shape images = [2 * Z.of_nat (length ex_batch); 3; 256; 128] /\
    shape labels = [2 * Z.of_nat (length ex_batch); 24; 64; 32] /\
    forall i x1 y1 x2 y2, nth_error ex_batch i = Some ((x1, y1), (x2, y2)) ->
      getitem_int images (2 * Z.of_nat i) = Ok x1 /\
      getitem_int images (2 * Z.of_nat i + 1) = Ok x2 /\
      getitem_int labels (2 * Z.of_nat i) = Ok y1 /\
      getitem_int labels (2 * Z.of_nat i + 1) = Ok y2.
Proof. exact (collate_fn_stacks_pairs ex_batch ex_batch_ok). Defined.

(** C8: on the empty batch [collate_fn] returns the two empty
    accumulators, of sizes (0, 3, 256, 128) and (0, 24, 64, 32). *)
Theorem collate_fn_empty_batch {D : Dtype} :
  collate_fn [] = Ok (mkTensor [0; 3; 256; 128] [], mkTensor [0; 24; 64; 32] []).
Proof. reflexivity. Qed.

(** ** Slices *)

Lemma py_slice_cover {A : Type} (l : list A) (l1 l2 : nat) :
  length l = (l1 + l2)%nat ->
  py_slice 0 l1 l ++ py_slice l1 (l1 + l2) l = l.
Proof.
  intros Hlen. unfold py_slice.
  rewrite Nat.sub_0_r, Nat.add_sub_swap, Nat.sub_diag by lia.
  cbn [skipn Nat.add].
  rewrite (firstn_all2 (n := l2) (skipn l1 l)) by (rewrite length_skipn; lia).
  apply firstn_skipn.
Qed.

Lemma NoDup_app_disjoint {A : Type} (l1 l2 : list A) :
  NoDup (l1 ++ l2) -> forall a, In a l1 -> ~ In a l2.
Proof.
  induction l1 as [|x l1 IH]; intros Hnd a Hin; [contradiction|].
  cbn [app] in Hnd. inversion Hnd as [|? ? Hx Hrest]; subst.
  destruct Hin as [<-|Hin].
  - intros H2. apply Hx, in_or_app. now right.
  - now apply IH.
Qed.

(** ** [setup] *)

Section SetupFacts.
Context {O : Opaque} {L : Library} {D : Dtype}.

(** What lines 51-57 do, by the trainer and the remainder. *)
Lemma adjust_batch_sizes_cases (st : State) :
  adjust_batch_sizes st =
  match trainer (self st) with
  | None => (st, Return tt)
  | Some tr =>
      let B := train_batch_size (hparams (self st)) in
      let T := test_batch_size (hparams (self st)) in
      let W := world_size tr in
      if W =? 0 then (st, Raise Propagated ZeroDivisionError)
      else if B mod W =? 0
      then (mkState (set_test_batch_size_per_device (T / W)
                       (set_train_batch_size_per_device (B / W) (self st)))
              (world st), Return tt)
      else (st, Raise Explicit (RuntimeError (not_divisible_msg B W)))
  end.
Proof.
  unfold adjust_batch_sizes, bind, get_self.
  destruct (trainer (self st)) as [tr|]; [|reflexivity].
  unfold call, py_mod, py_floordiv, raise, update_self. cbv zeta.
  destruct (world_size tr =? 0); [reflexivity|].
  destruct (train_batch_size (hparams (self st)) mod world_size tr =? 0); reflexivity.
Qed.

(** What lines 60-65 do when the test of line 60 succeeds. *)
Lemma load_datasets_cases (st : State) :
  nothing_loaded (self st) = true ->
  load_datasets st =
  match stored (world st) with
  | None => (st, Raise Propagated (OSError "BaseDataset: cannot read the samples"))
  | Some samples =>
      let m := self st in
      let w := world st in
      let k := next_id w in
      let alloc n := mkWorld n (default_generator w) (stored w) in
      let n := length samples in
      match split_lengths (train_test_split (hparams m)) n with
      | Err e => (mkState m (alloc (S k)), Raise Propagated e)
      | Ok (l1, l2) =>
          if (l1 + l2 =? n)%nat
          then
            let base := mkBaseDataset k samples in
            let perm := randperm (manual_seed 42) (l1 + l2) in
            let trainset := mkSubset (S k) base (py_slice 0 l1 perm) in
            let testset := mkSubset (S (S k)) base (py_slice l1 (l1 + l2) perm) in
            let d1 := mkCervicalDataset (S (S (S k))) trainset "train" (train_transforms m) in
            let d2 := mkCervicalDataset (S (S (S (S k)))) testset "val" (test_transforms m) in
            let d3 := mkCervicalDataset (S (S (S (S (S k))))) testset "test" (test_transforms m) in
            (mkState
               (set_data_test (Some d3) (set_data_val (Some d2) (set_data_train (Some d1) m)))
               (alloc (S (S (S (S (S (S k))))))),
             Return tt)
          else
            (mkState m (alloc (S k)),
             Raise Propagated
               (ValueError "Sum of input lengths does not equal the length of the input dataset!"))
      end
  end.
Proof.
  intros Hnl. unfold nothing_loaded in Hnl.
  unfold load_datasets, random_split, BaseDataset_new, Subset_new, CervicalDataset_new,
    update_self, fresh_id, call, bind, ret, get_self.
  rewrite Hnl.
  destruct (stored (world st)) as [samples|] eqn:Hst; [|reflexivity].
  cbn [self world next_id default_generator stored bd_samples].
  destruct (split_lengths (train_test_split (hparams (self st))) (length samples))
    as [[l1 l2]|e]; [|reflexivity].
  destruct (l1 + l2 =? length samples)%nat; reflexivity.
Qed.

(** What lines 60-65 do when the test of line 60 fails: nothing. *)
Lemma load_datasets_skip (st : State) :
  nothing_loaded (self st) = false -> load_datasets st = (st, Return tt).
Proof.
  intros Hnl. unfold nothing_loaded in Hnl.
  unfold load_datasets, bind, get_self. now rewrite Hnl.
Qed.


Lemma setup_eq (stage : option string) (st : State) :
  setup stage st =
  match adjust_batch_sizes st with
  | (st', Return _) => load_datasets st'
  | (st', Raise o e) => (st', Raise o e)
  end.
Proof. reflexivity. Qed.

(** Splits a goal about the right-hand side of [load_datasets_cases]
    into the four ways loading can end. *)
Ltac load_ends :=
  cbv zeta;
  repeat match goal with
    | |- context [match stored ?w with _ => _ end] => destruct (stored w)
    | |- context [match split_lengths ?r ?n with _ => _ end] =>
        destruct (split_lengths r n) as [[? ?]|?]
    | |- context [if (?a =? ?b)%nat then _ else _] => destruct (a =? b)%nat
    end.

(** Loading the datasets never ends in a [raise] of this file. *)
Lemma load_datasets_not_explicit (st : State) (e : exn) :
  snd (load_datasets st) <> Raise Explicit e.
Proof.
  destruct (nothing_loaded (self st)) eqn:Hnl.
  - rewrite (load_datasets_cases st Hnl). load_ends; discriminate.
  - rewrite (load_datasets_skip st Hnl). discriminate.
Qed.

(** Loading the datasets leaves the configuration and the batch sizes alone. *)
Lemma load_datasets_frame (st : State) :
  hparams (self (fst (load_datasets st))) = hparams (self st) /\
  trainer (self (fst (load_datasets st))) = trainer (self st) /\
  train_batch_size_per_device (self (fst (load_datasets st)))
    = train_batch_size_per_device (self st) /\
  test_batch_size_per_device (self (fst (load_datasets st)))
    = test_batch_size_per_device (self st).
Proof.
  destruct (nothing_loaded (self st)) eqn:Hnl.
  - rewrite (load_datasets_cases st Hnl). load_ends; repeat split.
  - rewrite (load_datasets_skip st Hnl). repeat split.
Qed.

(** How loading ends depends on the partitions, the world and the split ratio only. *)
Lemma load_datasets_outcome_ext (st1 st2 : State) :
  data_train (self st1) = data_train (self st2) ->
  data_val (self st1) = data_val (self st2) ->
  data_test (self st1) = data_test (self st2) ->
  world st1 = world st2 ->
  train_test_split (hparams (self st1)) = train_test_split (hparams (self st2)) ->
  snd (load_datasets st1) = snd (load_datasets st2).
Proof.
  intros H1 H2 H3 Hw Hs.
  assert (Hnl : nothing_loaded (self st1) = nothing_loaded (self st2))
    by (unfold nothing_loaded; now rewrite H1, H2, H3).
  destruct (nothing_loaded (self st2)) eqn:Hnl2.
  - rewrite (load_datasets_cases st1 Hnl), (load_datasets_cases st2 Hnl2).
    cbv zeta. rewrite Hw, Hs. load_ends; reflexivity.
  - now rewrite (load_datasets_skip st1 Hnl), (load_datasets_skip st2 Hnl2).
Qed.

(** A [setup] that returns after building the datasets has built these. *)
Lemma setup_Return_loaded (stage : option string) (st st' : State) :
  setup stage st = (st', Return tt) ->
  nothing_loaded (self st) = true ->
  exists (samples : list Sample) (l1 l2 : nat),
    stored (world st) = Some samples /\
    split_lengths (train_test_split (hparams (self st))) (length samples) = Ok (l1, l2) /\
    (l1 + l2)%nat = length samples /\
    let k := next_id (world st) in
    let base := mkBaseDataset k samples in
    let perm := randperm (manual_seed 42) (l1 + l2) in
    let trainset := mkSubset (S k) base (py_slice 0 l1 perm) in
    let testset := mkSubset (S (S k)) base (py_slice l1 (l1 + l2) perm) in
    data_train (self st')
      = Some (mkCervicalDataset (S (S (S k))) trainset "train" (train_transforms (self st))) /\
    data_val (self st')
      = Some (mkCervicalDataset (S (S (S (S k)))) testset "val" (test_transforms (self st))) /\
    data_test (self st')
      = Some (mkCervicalDataset (S (S (S (S (S k))))) testset "test" (test_transforms (self st))) /\
    next_id (world st') = S (S (S (S (S (S k))))).
Proof.
  intros Hrun Hnl. rewrite setup_eq, adjust_batch_sizes_cases in Hrun.
  assert (Hload : exists st0 : State,
            load_datasets st0 = (st', Return tt) /\ nothing_loaded (self st0) = true /\
            world st0 = world st /\ hparams (self st0) = hparams (self st) /\
            train_transforms (self st0) = train_transforms (self st) /\
            test_transforms (self st0) = test_transforms (self st)).
  { destruct (trainer (self st)) as [tr|].
    - cbv zeta in Hrun. destruct (world_size tr =? 0); [discriminate|].
      destruct (_ mod _ =? 0); [|discriminate].
      eexists. split; [exact Hrun|]. repeat split. exact Hnl.
    - exists st. repeat split; assumption. }
  destruct Hload as (st0 & Hrun0 & Hnl0 & Hw & Hh & Htt & Hte).
  rewrite (load_datasets_cases st0 Hnl0) in Hrun0.
  cbv zeta in Hrun0. rewrite Hw, Hh, Htt, Hte in Hrun0.
  destruct (stored (world st)) as [samples|]; [|discriminate].
  destruct (split_lengths _ _) as [[l1 l2]|e'] eqn:Hsl; [|discriminate].
  destruct (l1 + l2 =? _)%nat eqn:Hsum; [|discriminate].
  apply Nat.eqb_eq in Hsum.
  injection Hrun0 as <-.
  exists samples, l1, l2. repeat split; assumption.
Qed.

(** With a trainer that reports no device at all, the remainder of line
    52 cannot be taken, and the interpreter's exception ends [setup]. *)
Lemma setup_zero_world_size (stage : option string) (st : State) (tr : Trainer) :
  trainer (self st) = Some tr ->
  world_size tr = 0 ->
  setup stage st = (st, Raise Propagated ZeroDivisionError).
Proof.
  intros Htr HW. now rewrite setup_eq, adjust_batch_sizes_cases, Htr, HW.
Qed.

(** C2: with a trainer of [W] devices attached, [setup] raises its
    configuration error exactly when [W] does not divide the configured
    training batch size; when it does, the per-device training batch
    size becomes the quotient; and no other [raise] of [setup] exists. *)
Theorem setup_train_batch_size_check (stage : option string) (st : State) (tr : Trainer) :
  trainer (self st) = Some tr ->
  world_size tr <> 0 ->
  let B := train_batch_size (hparams (self st)) in
  let W := world_size tr in
  (snd (setup stage st) = Raise Explicit (RuntimeError (not_divisible_msg B W))
     <-> ~ (W | B)) /\
  ((W | B) -> train_batch_size_per_device (self (fst (setup stage st))) = B / W) /\
  (forall e, snd (setup stage st) = Raise Explicit e ->
     e = RuntimeError (not_divisible_msg B W)).
Proof.
  intros Htr HW B W.
  assert (Hdiv : B mod W = 0 <-> (W | B)) by (apply Z.mod_divide; exact HW).
  rewrite setup_eq, adjust_batch_sizes_cases, Htr. cbv zeta. fold B W.
  replace (W =? 0) with false by (symmetry; apply Z.eqb_neq; exact HW).
  destruct (B mod W =? 0) eqn:Hmod.
  - apply Z.eqb_eq in Hmod.
    match goal with |- context [load_datasets ?s] => set (st0 := s) end.
    repeat split.
    + intros H. now apply load_datasets_not_explicit in H.
    + intros H. exfalso. apply H, Hdiv, Hmod.
    + intros _. now destruct (load_datasets_frame st0) as (_ & _ & -> & _).
    + intros e H. now apply load_datasets_not_explicit in H.
  - apply Z.eqb_neq in Hmod. cbn [fst snd]. repeat split.
    + intros _ H. apply Hmod, Hdiv, H.
    + intros H. exfalso. apply Hmod, Hdiv, H.
    + intros e H. now injection H as <-.
Qed.

(** C7, amended: the configured evaluation batch size is never checked:
    with [W > 0] devices [setup] ends the same way whatever that size is,
    and whenever [W] divides the configured training batch size, so that
    the check of line 52 passes, the per-device evaluation batch size
    becomes the floor of the configured one divided by [W], also when
    [W] does not divide it. *)
Theorem setup_eval_batch_size_unchecked (stage : option string) (st : State) (tr : Trainer) :
  trainer (self st) = Some tr ->
  0 < world_size tr ->
  forall b : Z,
    snd (setup stage (with_test_batch_size b st)) = snd (setup stage st) /\
    ((world_size tr | train_batch_size (hparams (self st))) ->
     test_batch_size_per_device (self (fst (setup stage (with_test_batch_size b st))))
       = b / world_size tr).
Proof.
  intros Htr HW b.
  assert (Hdiv : train_batch_size (hparams (self st)) mod world_size tr = 0
                 <-> (world_size tr | train_batch_size (hparams (self st))))
    by (apply Z.mod_divide; lia).
  rewrite !setup_eq, !adjust_batch_sizes_cases.
  cbn [with_test_batch_size self world hparams trainer train_batch_size test_batch_size].
  rewrite Htr. cbv zeta.
  replace (world_size tr =? 0) with false by (symmetry; apply Z.eqb_neq; lia).
  destruct (_ mod _ =? 0) eqn:Hmod.
  - split.
    + apply load_datasets_outcome_ext; reflexivity.
    + intros _.
      match goal with |- context [load_datasets ?s] => set (st0 := s) end.
      now destruct (load_datasets_frame st0) as (_ & _ & _ & ->).
  - apply Z.eqb_neq in Hmod. split; [reflexivity|].
    intros H. exfalso. apply Hmod, Hdiv, H.
Qed.

(** C9: when [setup] raises its divisibility error, nothing has been
    written: the module, and with it the three partitions, and the
    world are as before the call. *)
Theorem setup_error_leaves_state (stage : option string) (st : State) (msg : string) :
  snd (setup stage st) = Raise Explicit (RuntimeError msg) ->
  fst (setup stage st) = st /\
  data_train (self (fst (setup stage st))) = data_train (self st) /\
  data_val (self (fst (setup stage st))) = data_val (self st) /\
  data_test (self (fst (setup stage st))) = data_test (self st).
Proof.
  rewrite setup_eq, adjust_batch_sizes_cases.
  destruct (trainer (self st)) as [tr|].
  - cbv zeta. destruct (world_size tr =? 0); [discriminate|].
    destruct (_ mod _ =? 0).
    + intros H. now apply load_datasets_not_explicit in H.
    + intros _. repeat split.
  - intros H. now apply load_datasets_not_explicit in H.
Qed.

(** When a partition attribute already holds a non-empty dataset,
    [setup] builds nothing. *)
Lemma setup_keeps_loaded_partitions (stage : option string) (st : State) :
  nothing_loaded (self st) = false ->
  data_train (self (fst (setup stage st))) = data_train (self st) /\
  data_val (self (fst (setup stage st))) = data_val (self st) /\
  data_test (self (fst (setup stage st))) = data_test (self st) /\
  world (fst (setup stage st)) = world st.
Proof.
  intros Hnl. rewrite setup_eq, adjust_batch_sizes_cases.
  destruct (trainer (self st)) as [tr|].
  - cbv zeta. destruct (world_size tr =? 0); [repeat split|].
    destruct (_ mod _ =? 0); [|repeat split].
    rewrite load_datasets_skip by exact Hnl. repeat split.
  - rewrite load_datasets_skip by exact Hnl. repeat split.
Qed.

(** The two loaders without shuffling are built the same way, and are
    built exactly when the number of workers is not negative and the
    batch size is positive. *)
Lemma DataLoader_new_plain (ds : option CervicalDataset) (batch_size workers : Z) (pin : bool) :
  DataLoader_new ds batch_size workers pin false None =
  if workers <? 0
  then Err (ValueError
              "num_workers option should be non-negative; use num_workers=0 to disable multiprocessing.")
  else if batch_size <=? 0
  then Err (ValueError
              ("batch_size should be a positive integer value, but got batch_size="
                 ++ py_str batch_size)%string)
  else Ok (mkDataLoader ds batch_size workers pin false None).
Proof. unfold DataLoader_new. now destruct (workers <? 0). Qed.

(** C10: after a [setup] that builds the datasets and returns, the
    validation and the test dataset wrap one and the same subset, the
    evaluation part of the split (the second piece of the permutation,
    another object than the training subset, cut from the same full
    dataset), and the same transform pipeline, and differ in their mode;
    the two loaders are built under the same conditions, fail alike when
    [DataLoader] refuses its arguments, and otherwise draw from the
    same indices, those of the evaluation part. *)
Theorem setup_val_test_share_partition (stage : option string) (st st' : State) :
  setup stage st = (st', Return tt) ->
  nothing_loaded (self st) = true ->
  exists (samples : list Sample) (l1 l2 : nat) (dtr dv dt : CervicalDataset),
    stored (world st) = Some samples /\
    split_lengths (train_test_split (hparams (self st))) (length samples) = Ok (l1, l2) /\
    data_train (self st') = Some dtr /\
    data_val (self st') = Some dv /\
    data_test (self st') = Some dt /\
    indices (dataset dtr) = py_slice 0 l1 (randperm (manual_seed 42) (l1 + l2)) /\
    indices (dataset dv) = py_slice l1 (l1 + l2) (randperm (manual_seed 42) (l1 + l2)) /\
    dataset dv = dataset dt /\
    dataset dv <> dataset dtr /\
    ss_dataset (dataset dv) = ss_dataset (dataset dtr) /\
    bd_samples (ss_dataset (dataset dv)) = samples /\
    transform dv = test_transforms (self st) /\
    transform dt = test_transforms (self st) /\
    mode dv = "val" /\ mode dt = "test" /\
    (0 <= num_workers (hparams (self st')) ->
     0 < test_batch_size_per_device (self st') ->
     exists lv lt : DataLoader,
       val_dataloader st' = (st', Return lv) /\
       test_dataloader st' = (st', Return lt) /\
       dl_dataset lv = Some dv /\ dl_dataset lt = Some dt /\
       loader_indices lv = indices (dataset dv) /\
       loader_indices lt = loader_indices lv) /\
    (~ (0 <= num_workers (hparams (self st')) /\ 0 < test_batch_size_per_device (self st')) ->
     exists e : exn,
       val_dataloader st' = (st', Raise Propagated e) /\
       test_dataloader st' = (st', Raise Propagated e)).
Proof.
  intros Hrun Hnl.
  destruct (setup_Return_loaded stage st st' Hrun Hnl)
    as (samples & l1 & l2 & Hs & Hsl & _ & Hd).
  cbv zeta in Hd. destruct Hd as (Htr & Hv & Ht & _).
  do 6 eexists.
  split; [exact Hs|]. split; [exact Hsl|].
  split; [exact Htr|]. split; [exact Hv|]. split; [exact Ht|].
  cbn [dataset indices transform mode ss_dataset bd_samples].
  do 3 (split; [reflexivity|]).
  split; [intros E; injection E as E _; lia|].
  do 6 (split; [reflexivity|]).
  unfold val_dataloader, test_dataloader, loader_indices, bind, get_self, call.
  rewrite Hv, Ht, !DataLoader_new_plain.
  split.
  - intros Hw Hb.
    replace (num_workers (hparams (self st')) <? 0) with false
      by (symmetry; apply Z.ltb_ge; lia).
    replace (test_batch_size_per_device (self st') <=? 0) with false
      by (symmetry; apply Z.leb_gt; lia).
    do 2 eexists. repeat split.
  - intros Hno.
    destruct (num_workers (hparams (self st')) <? 0) eqn:Hw.
    + eexists. split; reflexivity.
    + destruct (test_batch_size_per_device (self st') <=? 0) eqn:Hb.
      * eexists. split; reflexivity.
      * exfalso. apply Hno. apply Z.ltb_ge in Hw. apply Z.leb_gt in Hb. lia.
Qed.

(** C4: two runs of [setup] that split the same full dataset by the same
    ratio put the same indices into the training and into the
    evaluation partition, whatever else differs between the runs; the
    two partitions share no index and together hold every index once. *)
Theorem setup_partition_deterministic
    (stage1 stage2 : option string) (st1 st2 st1' st2' : State) (samples : list Sample) :
  nothing_loaded (self st1) = true ->
  nothing_loaded (self st2) = true ->
  stored (world st1) = Some samples ->
  stored (world st2) = Some samples ->
  train_test_split (hparams (self st1)) = train_test_split (hparams (self st2)) ->
  Permutation (randperm (manual_seed 42) (length samples)) (seq 0 (length samples)) ->
  setup stage1 st1 = (st1', Return tt) ->
  setup stage2 st2 = (st2', Return tt) ->
  partition_indices (data_train (self st1')) = partition_indices (data_train (self st2')) /\
  partition_indices (data_val (self st1')) = partition_indices (data_val (self st2')) /\
  partition_indices (data_test (self st1')) = partition_indices (data_test (self st2')) /\
  partition_indices (data_test (self st1')) = partition_indices (data_val (self st1')) /\
  (forall i, In i (partition_indices (data_train (self st1'))) ->
             ~ In i (partition_indices (data_val (self st1')))) /\
  Permutation
    (partition_indices (data_train (self st1')) ++ partition_indices (data_val (self st1')))
    (seq 0 (length samples)).
Proof.
  intros Hnl1 Hnl2 Hs1 Hs2 Hratio Hperm Hrun1 Hrun2.
  destruct (setup_Return_loaded stage1 st1 st1' Hrun1 Hnl1)
    as (s1 & a1 & b1 & Hst1 & Hsl1 & Hsum1 & Hd1).
  destruct (setup_Return_loaded stage2 st2 st2' Hrun2 Hnl2)
    as (s2 & a2 & b2 & Hst2 & Hsl2 & Hsum2 & Hd2).
  cbv zeta in Hd1, Hd2.
  destruct Hd1 as (Ht1 & Hv1 & He1 & _). destruct Hd2 as (Ht2 & Hv2 & He2 & _).
  rewrite Hs1 in Hst1. injection Hst1 as <-.
  rewrite Hs2 in Hst2. injection Hst2 as <-.
  rewrite <- Hratio, Hsl1 in Hsl2. injection Hsl2 as <- <-.
  rewrite Ht1, Hv1, He1, Ht2, Hv2, He2. cbn [partition_indices dataset indices].
  rewrite Hsum1.
  assert (Hcover : py_slice 0 a1 (randperm (manual_seed 42) (length samples))
                     ++ py_slice a1 (length samples) (randperm (manual_seed 42) (length samples))
                   = randperm (manual_seed 42) (length samples)).
  { rewrite <- Hsum1 at 2. apply py_slice_cover.
    rewrite (Permutation_length Hperm), length_seq. now symmetry. }
  repeat split.
  - apply NoDup_app_disjoint. rewrite Hcover.
    apply (Permutation_NoDup (Permutation_sym Hperm)), seq_NoDup.
  - now rewrite Hcover.
Qed.

(** C5: [num_classes] is 23 for every module, however it was configured. *)
Theorem num_classes_constant :
  (forall m : DataModule, num_classes m = 23) /\
  (forall (split : Float * Float) (train_bs test_bs workers : Z)
          (train_tf test_tf : option Compose) (pin : bool),
     num_classes (DataModule_init split train_bs test_bs workers train_tf test_tf pin) = 23).
Proof. split; reflexivity. Qed.

(** C6: [state_dict] returns the empty dictionary and changes nothing,
    and [load_state_dict] applied to what [state_dict] returned leaves
    the whole state as it was. *)
Theorem state_dict_roundtrip_noop (st : State) :
  state_dict st = (st, Return []) /\
  (d <- state_dict ;; load_state_dict d) st = (st, Return tt).
Proof. split; reflexivity. Qed.

End SetupFacts.

(** ** The concrete instance *)

Section Examples.
#[local] Existing Instance ex_dtype.
#[local] Existing Instance ex_opaque.
#[local] Existing Instance ex_library.

Lemma ex_randperm_permutation (g : Generator) (n : nat) :
  Permutation (ex_randperm g n) (seq 0 n).
Proof.
  unfold ex_randperm. rewrite Permutation_app_comm. now rewrite firstn_skipn.
Qed.

(** Four devices and a training batch size of 32. *)
Lemma setup_train_batch_size_check_witness :
  (snd (setup None (ex_state 32 64 4 10))
     = Raise Explicit (RuntimeError (not_divisible_msg 32 4)) <-> ~ (4 | 32)) /\
  ((4 | 32) ->
   train_batch_size_per_device (self (fst (setup None (ex_state 32 64 4 10)))) = 32 / 4) /\
  (forall e, snd (setup None (ex_state 32 64 4 10)) = Raise Explicit e ->
     e = RuntimeError (not_divisible_msg 32 4)).
Proof.
  apply (setup_train_batch_size_check None (ex_state 32 64 4 10) (mkTrainer 4)).
  - reflexivity.
  - discriminate.
Defined.

(** Four devices and an evaluation batch size of 50, which four does not divide. *)
Lemma setup_eval_batch_size_unchecked_witness :
  snd (setup None (with_test_batch_size 50 (ex_state 32 64 4 10)))
    = snd (setup None (ex_state 32 64 4 10)) /\
  ((4 | 32) ->
   test_batch_size_per_device
     (self (fst (setup None (with_test_batch_size 50 (ex_state 32 64 4 10))))) = 50 / 4).
Proof.
  apply (setup_eval_batch_size_unchecked None (ex_state 32 64 4 10) (mkTrainer 4)).
  - reflexivity.
  - reflexivity.
Defined.

(** C7 as stated, without the proviso on the training batch size, fails
    with three devices, a training batch size of 32 and an evaluation
    batch size of 64: [setup] raises before it adjusts anything, and the
    per-device evaluation batch size stays 64 instead of 21. *)
Lemma setup_eval_batch_size_counterexample :
  trainer (self (ex_state 32 64 3 10)) = Some (mkTrainer 3) /\
  0 < world_size (mkTrainer 3) /\
  test_batch_size_per_device (self (fst (setup None (ex_state 32 64 3 10)))) = 64 /\
  test_batch_size_per_device (self (fst (setup None (ex_state 32 64 3 10))))
    <> test_batch_size (hparams (self (ex_state 32 64 3 10))) / world_size (mkTrainer 3).
Proof.
  split; [reflexivity|]. split; [reflexivity|]. split; [reflexivity|]. discriminate.
Qed.

(** Three devices and a training batch size of 32. *)
Lemma setup_error_leaves_state_witness :
  fst (setup None (ex_state 32 64 3 10)) = ex_state 32 64 3 10 /\
  data_train (self (fst (setup None (ex_state 32 64 3 10)))) = data_train (self (ex_state 32 64 3 10)) /\
  data_val (self (fst (setup None (ex_state 32 64 3 10)))) = data_val (self (ex_state 32 64 3 10)) /\
  data_test (self (fst (setup None (ex_state 32 64 3 10)))) = data_test (self (ex_state 32 64 3 10)).
Proof.
  apply (setup_error_leaves_state None (ex_state 32 64 3 10) (not_divisible_msg 32 3)).
  reflexivity.
Defined.

(** Ten samples split nine to one, four workers, sixteen items per
    device and evaluation step. *)
Lemma setup_val_test_share_partition_witness :
  exists (samples : list Sample) (l1 l2 : nat) (dtr dv dt : CervicalDataset),
    stored (world (ex_state 32 64 4 10)) = Some samples /\
    split_lengths (train_test_split (hparams (self (ex_state 32 64 4 10)))) (length samples)
      = Ok (l1, l2) /\
    data_train (self ex_loaded_state) = Some dtr /\
    data_val (self ex_loaded_state) = Some dv /\
    data_test (self ex_loaded_state) = Some dt /\
    indices (dataset dtr) = py_slice 0 l1 (randperm (manual_seed 42) (l1 + l2)) /\
    indices (dataset dv) = py_slice l1 (l1 + l2) (randperm (manual_seed 42) (l1 + l2)) /\
    dataset dv = dataset dt /\
    dataset dv <> dataset dtr /\
    ss_dataset (dataset dv) = ss_dataset (dataset dtr) /\
    bd_samples (ss_dataset (dataset dv)) = samples /\
    transform dv = test_transforms (self (ex_state 32 64 4 10)) /\
    transform dt = test_transforms (self (ex_state 32 64 4 10)) /\
    mode dv = "val" /\ mode dt = "test" /\
    (0 <= num_workers (hparams (self ex_loaded_state)) ->
     0 < test_batch_size_per_device (self ex_loaded_state) ->
     exists lv lt : DataLoader,
       val_dataloader ex_loaded_state = (ex_loaded_state, Return lv) /\
       test_dataloader ex_loaded_state = (ex_loaded_state, Return lt) /\
       dl_dataset lv = Some dv /\ dl_dataset lt = Some dt /\
       loader_indices lv = indices (dataset dv) /\
       loader_indices lt = loader_indices lv) /\
    (~ (0 <= num_workers (hparams (self ex_loaded_state)) /\
        0 < test_batch_size_per_device (self ex_loaded_state)) ->
     exists e : exn,
       val_dataloader ex_loaded_state = (ex_loaded_state, Raise Propagated e) /\
       test_dataloader ex_loaded_state = (ex_loaded_state, Raise Propagated e)).
Proof.
  apply (setup_val_test_share_partition None (ex_state 32 64 4 10) ex_loaded_state).
  - reflexivity.
  - reflexivity.
Defined.

(** The same ten samples, split once by a module on four devices and
    once by a differently configured module in another process. *)
Lemma setup_partition_deterministic_witness :
  partition_indices (data_train (self ex_loaded_state))
    = partition_indices (data_train (self ex_other_loaded_state)) /\
  partition_indices (data_val (self ex_loaded_state))
    = partition_indices (data_val (self ex_other_loaded_state)) /\
  partition_indices (data_test (self ex_loaded_state))
    = partition_indices (data_test (self ex_other_loaded_state)) /\
  partition_indices (data_test (self ex_loaded_state))
    = partition_indices (data_val (self ex_loaded_state)) /\
  (forall i, In i (partition_indices (data_train (self ex_loaded_state))) ->
             ~ In i (partition_indices (data_val (self ex_loaded_state)))) /\
  Permutation
    (partition_indices (data_train (self ex_loaded_state))
       ++ partition_indices (data_val (self ex_loaded_state)))
    (seq 0 (length (seq 0 10))).
Proof.
  apply (setup_partition_deterministic None (Some "fit")
           (ex_state 32 64 4 10) (ex_other_state 10)
           ex_loaded_state ex_other_loaded_state (seq 0 10)).
  - reflexivity.
  - reflexivity.
  - reflexivity.
  - reflexivity.
  - reflexivity.
  - apply ex_randperm_permutation.
  - reflexivity.
  - reflexivity.
Defined.

(** C3, on a dataset directory without samples: the first [setup]
    returns with the three partitions built, all of them empty; the
    second [setup] returns too, but has built six new objects and put
    three new datasets into the partition attributes. *)
Theorem setup_twice_rebuilds_empty_partitions :
  setup None (ex_state 32 64 4 0) = (ex_empty_loaded_state, Return tt) /\
  (exists d1 d2 d3 : CervicalDataset,
     data_train (self ex_empty_loaded_state) = Some d1 /\
     data_val (self ex_empty_loaded_state) = Some d2 /\
     data_test (self ex_empty_loaded_state) = Some d3) /\
  nothing_loaded (self ex_empty_loaded_state) = true /\
  setup None ex_empty_loaded_state = (ex_empty_reloaded_state, Return tt) /\
  data_train (self ex_empty_reloaded_state) <> data_train (self ex_empty_loaded_state) /\
  data_val (self ex_empty_reloaded_state) <> data_val (self ex_empty_loaded_state) /\
  data_test (self ex_empty_reloaded_state) <> data_test (self ex_empty_loaded_state) /\
  next_id (world ex_empty_reloaded_state) = (next_id (world ex_empty_loaded_state) + 6)%nat.
Proof.
  split; [reflexivity|].
  split; [do 3 eexists; repeat split|].
  split; [reflexivity|].
  split; [reflexivity|].
  repeat split; discriminate.
Qed.

End Examples.

(** ** More about [collate_fn] *)

Section CollateFacts.
Context {D : Dtype}.

(** Stacking two tensors with a new leading dimension onto an
    accumulator succeeds exactly when both agree with it on the
    trailing sizes. *)
Lemma torch_cat0_onto (t u v : Tensor) (n d : Z) (s su sv : list Z) :
  shape t = n :: d :: s -> shape u = 1 :: su -> shape v = 1 :: sv ->
  torch_cat0 [t; u; v] =
  if forallb (same_trailing (d :: s)) [u; v]
  then Ok (mkTensor ((n + 1 + 1) :: d :: s) (data t ++ data u ++ data v))
  else Err (RuntimeError "Sizes of tensors must match except in dimension 0").
Proof.
  intros Ht Hu Hv. unfold torch_cat0, legacy_empty. cbn [filter].
  rewrite Ht, Hu, Hv.
  assert (Hn : match n :: d :: s with [0] => true | _ => false end = false)
    by (destruct n; reflexivity).
  rewrite Hn. cbn [negb]. rewrite Ht.
  destruct (forallb (same_trailing (d :: s)) [u; v]); [|reflexivity].
  unfold dim0. cbn [map fold_left concat]. rewrite Hu, Hv.
  now rewrite app_nil_r.
Qed.

Lemma same_trailing_iff (s : list Z) (x : Tensor) (d0 : Z) (s0 : list Z) :
  shape x = d0 :: s0 ->
  same_trailing s (mkTensor (1 :: shape x) (data x)) = true <-> shape x = s.
Proof.
  intros Hx. unfold same_trailing. cbn [shape].
  destruct (list_eq_dec Z.eq_dec (shape x) s); split; congruence.
Qed.

(** The loop returns only if every tensor it meets has the trailing
    sizes of its accumulator. *)
Lemma collate_loop_Ok_sizes (di dl : Z) (si sl : list Z) :
  forall (batch : list item) (images labels : Tensor) (n m : Z) (r : Tensor * Tensor),
  shape images = n :: di :: si -> shape labels = m :: dl :: sl ->
  collate_loop batch images labels = Ok r ->
  Forall (fun it : item =>
            let '((x1, y1), (x2, y2)) := it in
            shape x1 = di :: si /\ shape y1 = dl :: sl /\
            shape x2 = di :: si /\ shape y2 = dl :: sl) batch.
Proof.
  induction batch as [|[[x1 y1] [x2 y2]] rest IH]; intros images labels n m r Hi Hl Hrun.
  - constructor.
  - cbn [collate_loop] in Hrun. unfold getitem_None_slice in Hrun.
    destruct (shape x1) as [|a1 s1] eqn:Hx1; [discriminate|].
    destruct (shape x2) as [|a2 s2] eqn:Hx2; [discriminate|].
    cbn [bindR] in Hrun.
    rewrite torch_cat0_onto with (n := n) (d := di) (s := si) (su := a1 :: s1) (sv := a2 :: s2) in Hrun by (assumption || reflexivity).
    destruct (forallb _ _) eqn:Himg in Hrun; [|discriminate].
    destruct (shape y1) as [|b1 t1] eqn:Hy1; [discriminate|].
    destruct (shape y2) as [|b2 t2] eqn:Hy2; [discriminate|].
    cbn [bindR] in Hrun.
    rewrite torch_cat0_onto with (n := m) (d := dl) (s := sl) (su := b1 :: t1) (sv := b2 :: t2) in Hrun by (assumption || reflexivity).
    destruct (forallb _ _) eqn:Hlbl in Hrun; [|discriminate].
    cbn [bindR] in Hrun.
    cbn [forallb] in Himg, Hlbl. rewrite !andb_true_iff in Himg, Hlbl.
    destruct Himg as (I1 & I2 & _). destruct Hlbl as (L1 & L2 & _).
    unfold same_trailing in I1, I2, L1, L2. cbn [shape] in I1, I2, L1, L2.
    destruct (list_eq_dec Z.eq_dec (a1 :: s1) (di :: si)) as [E1|]; [|discriminate].
    destruct (list_eq_dec Z.eq_dec (a2 :: s2) (di :: si)) as [E2|]; [|discriminate].
    destruct (list_eq_dec Z.eq_dec (b1 :: t1) (dl :: sl)) as [E3|]; [|discriminate].
    destruct (list_eq_dec Z.eq_dec (b2 :: t2) (dl :: sl)) as [E4|]; [|discriminate].
    constructor.
    + repeat split; congruence.
    + eapply IH; [| |exact Hrun]; reflexivity.
Qed.

(** When the loop fails, it fails the same way whatever the
    accumulators hold. *)
Lemma collate_loop_Err_any (di dl : Z) (si sl : list Z) :
  forall (batch : list item) (images labels images' labels' : Tensor) (n m n' m' : Z) (e : exn),
  shape images = n :: di :: si -> shape labels = m :: dl :: sl ->
  shape images' = n' :: di :: si -> shape labels' = m' :: dl :: sl ->
  collate_loop batch images labels = Err e ->
  collate_loop batch images' labels' = Err e.
Proof.
  induction batch as [|[[x1 y1] [x2 y2]] rest IH];
    intros images labels images' labels' n m n' m' e Hi Hl Hi' Hl' Hrun.
  - discriminate.
  - cbn [collate_loop] in *. unfold getitem_None_slice in *.
    destruct (shape x1) as [|a1 s1] eqn:Hx1; [exact Hrun|].
    destruct (shape x2) as [|a2 s2] eqn:Hx2; [exact Hrun|].
    cbn [bindR] in *.
    rewrite torch_cat0_onto with (n := n) (d := di) (s := si) (su := a1 :: s1) (sv := a2 :: s2) in Hrun by (assumption || reflexivity).
    rewrite torch_cat0_onto with (n := n') (d := di) (s := si) (su := a1 :: s1) (sv := a2 :: s2) by (assumption || reflexivity).
    destruct (forallb _ _); [|exact Hrun].
    destruct (shape y1) as [|b1 t1] eqn:Hy1; [exact Hrun|].
    destruct (shape y2) as [|b2 t2] eqn:Hy2; [exact Hrun|].
    cbn [bindR] in *.
    rewrite torch_cat0_onto with (n := m) (d := dl) (s := sl) (su := b1 :: t1) (sv := b2 :: t2) in Hrun by (assumption || reflexivity).
    rewrite torch_cat0_onto with (n := m') (d := dl) (s := sl) (su := b1 :: t1) (sv := b2 :: t2) by (assumption || reflexivity).
    destruct (forallb _ _); [|exact Hrun].
    cbn [bindR] in *.
    eapply IH; [| | | |exact Hrun]; reflexivity.
Qed.

(** The loop over two batches in a row is the loop over the second
    started from the result of the first. *)
Lemma collate_loop_app (b1 b2 : list item) :
  forall images labels : Tensor,
  collate_loop (b1 ++ b2) images labels =
  let? r := collate_loop b1 images labels in collate_loop b2 (fst r) (snd r).
Proof.
  induction b1 as [|[[x1 y1] [x2 y2]] rest IH]; intros images labels.
  - reflexivity.
  - cbn [app collate_loop].
    destruct (getitem_None_slice x1); [|reflexivity].
    destruct (getitem_None_slice x2); [|reflexivity]. cbn [bindR].
    destruct (torch_cat0 _); [|reflexivity].
    destruct (getitem_None_slice y1); [|reflexivity].
    destruct (getitem_None_slice y2); [|reflexivity]. cbn [bindR].
    destruct (torch_cat0 _); [|reflexivity]. cbn [bindR].
    apply IH.
Qed.

Lemma torch_cat0_two (t u : Tensor) (a b d : Z) (s : list Z) :
  shape t = a :: d :: s -> shape u = b :: d :: s ->
  torch_cat0 [t; u] = Ok (mkTensor ((a + b) :: d :: s) (data t ++ data u)).
Proof.
  intros Ht Hu. unfold torch_cat0, legacy_empty. cbn [filter].
  rewrite Ht, Hu.
  assert (Ha : match a :: d :: s with [0] => true | _ => false end = false)
    by (destruct a; reflexivity).
  assert (Hb : match b :: d :: s with [0] => true | _ => false end = false)
    by (destruct b; reflexivity).
  rewrite Ha, Hb. cbn [negb]. rewrite Ht.
  unfold same_trailing, dim0. cbn [forallb map fold_left concat]. rewrite Hu.
  destruct (list_eq_dec Z.eq_dec (d :: s) (d :: s)) as [_|F]; [|congruence].
  cbn [andb]. now rewrite app_nil_r.
Qed.

(** An accumulator of [torch.empty] with a leading zero holds no cell. *)
Lemma torch_empty_no_cell (s : list Z) : data (torch_empty (0 :: s)) = [].
Proof. reflexivity. Qed.

Lemma blocks_length (s : list Z) (blocks : list Tensor) :
  Forall (has_size s) blocks ->
  Z.of_nat (length (concat (map data blocks))) = Z.of_nat (length blocks) * numel s.
Proof.
  induction 1 as [|x rest [Hshape Hwf] _ IH]; [reflexivity|].
  cbn [map concat length]. rewrite length_app, Nat2Z.inj_add, IH, Nat2Z.inj_succ, Z.mul_succ_l.
  unfold wf_tensor in Hwf. rewrite andb_true_iff, Z.eqb_eq, Hshape in Hwf. lia.
Qed.

Lemma batch_lengths (batch : list item) :
  length (batch_images batch) = (2 * length batch)%nat /\
  length (batch_labels batch) = (2 * length batch)%nat.
Proof.
  induction batch as [|[[x1 y1] [x2 y2]] rest [IHi IHl]]; [split; reflexivity|].
  cbn [batch_images batch_labels flat_map app length] in *.
  fold (batch_images rest) (batch_labels rest). split; lia.
Qed.

(** X1: [collate_fn] returns exactly when every tensor of every item
    has the size hardcoded for its accumulator, 3x256x128 for images and
    24x64x32 for heatmaps; any other item makes it raise. *)
Theorem collate_fn_returns_iff_sizes (batch : list item) :
  (exists r, collate_fn batch = Ok r) <-> Forall item_sizes_ok batch.
Proof.
  unfold collate_fn. split.
  - intros [r Hr].
    exact (collate_loop_Ok_sizes 3 24 [256; 128] [64; 32] batch
      (torch_empty [0; 3; 256; 128]) (torch_empty [0; 24; 64; 32]) 0 0 r
             eq_refl eq_refl Hr).
  - intros Hall. eexists.
    apply (collate_loop_spec 3 24 [256; 128] [64; 32] batch
      (torch_empty [0; 3; 256; 128]) (torch_empty [0; 24; 64; 32]) 0 0 eq_refl eq_refl).
    exact Hall.
Qed.

(** X2: on items of the expected sizes the two tensors [collate_fn]
    returns are well formed: they hold as many cells as their sizes
    say, 98304 for each of the 2N images and 49152 for each of the 2N
    heatmaps. *)
Theorem collate_fn_well_formed (batch : list item) :
  Forall item_ok batch ->
  exists images labels : Tensor,
    collate_fn batch = Ok (images, labels) /\
    wf_tensor images = true /\ wf_tensor labels = true /\
    Z.of_nat (length (data images)) = 2 * Z.of_nat (length batch) * 98304 /\
    Z.of_nat (length (data labels)) = 2 * Z.of_nat (length batch) * 49152.
Proof.
  intros Hall.
  destruct (batch_sizes batch Hall) as [Himg Hlbl].
  destruct (batch_lengths batch) as [Li Ll].
  pose proof (blocks_length image_size _ Himg) as Ci.
  pose proof (blocks_length heatmap_size _ Hlbl) as Cl.
  rewrite Li in Ci. rewrite Ll in Cl.
  change (numel image_size) with 98304 in Ci.
  change (numel heatmap_size) with 49152 in Cl.
  unfold collate_fn.
  rewrite collate_loop_spec
    with (n := 0) (m := 0) (di := 3) (si := [256; 128]) (dl := 24) (sl := [64; 32]).
  2, 3: reflexivity.
  2: { eapply Forall_impl; [|exact Hall].
       intros [[x1 y1] [x2 y2]] (Hx1 & Hy1 & Hx2 & Hy2).
       repeat split; (apply Hx1 || apply Hy1 || apply Hx2 || apply Hy2). }
  eexists _, _. split; [reflexivity|].
  unfold wf_tensor. cbn [shape data forallb]. rewrite !torch_empty_no_cell. cbn [app].
  change (numel ((0 + 2 * Z.of_nat (length batch)) :: [3; 256; 128]))
    with ((0 + 2 * Z.of_nat (length batch)) * 98304).
  change (numel ((0 + 2 * Z.of_nat (length batch)) :: [24; 64; 32]))
    with ((0 + 2 * Z.of_nat (length batch)) * 49152).
  repeat split.
  - rewrite !andb_true_iff, Z.eqb_eq, Z.leb_le. repeat split; lia.
  - rewrite !andb_true_iff, Z.eqb_eq, Z.leb_le. repeat split; lia.
  - lia.
  - lia.
Qed.

(** X3: collating two batches in a row is collating each and stacking
    the results with [torch.cat]; this holds also when an item makes
    [collate_fn] fail, in which case both sides fail with the exception
    of the first such item. *)
Theorem collate_fn_app (b1 b2 : list item) :
  collate_fn (b1 ++ b2) =
  let? r1 := collate_fn b1 in
  let? r2 := collate_fn b2 in
  let? images := torch_cat0 [fst r1; fst r2] in
  let? labels := torch_cat0 [snd r1; snd r2] in
  Ok (images, labels).
Proof.
  unfold collate_fn. rewrite collate_loop_app.
  destruct (collate_loop b1 _ _) as [[i1 l1]|e1] eqn:H1; cbn [bindR]; [|reflexivity].
  pose proof (collate_loop_Ok_sizes 3 24 [256; 128] [64; 32] b1
      (torch_empty [0; 3; 256; 128]) (torch_empty [0; 24; 64; 32]) 0 0 _
                eq_refl eq_refl H1) as F1.
  rewrite (collate_loop_spec 3 24 [256; 128] [64; 32] b1
      (torch_empty [0; 3; 256; 128]) (torch_empty [0; 24; 64; 32]) 0 0 eq_refl eq_refl F1) in H1.
  injection H1 as <- <-. cbn [fst snd].
  destruct (collate_loop b2 (torch_empty _) _) as [[i2 l2]|e2] eqn:H2; cbn [bindR].
  - pose proof (collate_loop_Ok_sizes 3 24 [256; 128] [64; 32] b2
      (torch_empty [0; 3; 256; 128]) (torch_empty [0; 24; 64; 32]) 0 0 _
                  eq_refl eq_refl H2) as F2.
    rewrite (collate_loop_spec 3 24 [256; 128] [64; 32] b2
      (torch_empty [0; 3; 256; 128]) (torch_empty [0; 24; 64; 32]) 0 0 eq_refl eq_refl F2) in H2.
    injection H2 as <- <-. cbn [fst snd].
    rewrite collate_loop_spec
      with (n := 0 + 2 * Z.of_nat (length b1)) (m := 0 + 2 * Z.of_nat (length b1))
           (di := 3) (si := [256; 128]) (dl := 24) (sl := [64; 32])
      by (reflexivity || exact F2).
    rewrite torch_cat0_two
      with (a := 0 + 2 * Z.of_nat (length b1)) (b := 0 + 2 * Z.of_nat (length b2))
           (d := 3) (s := [256; 128]) by reflexivity.
    cbn [bindR].
    rewrite torch_cat0_two
      with (a := 0 + 2 * Z.of_nat (length b1)) (b := 0 + 2 * Z.of_nat (length b2))
           (d := 24) (s := [64; 32]) by reflexivity.
    cbn [bindR data].
    rewrite !Z.add_0_l. reflexivity.
  - eapply (collate_loop_Err_any 3 24 [256; 128] [64; 32] b2); [| | | |exact H2]; reflexivity.
Qed.

End CollateFacts.

(** ** More about [setup] and the loaders *)

Section LifecycleFacts.
Context {O : Opaque} {L : Library} {D : Dtype}.

(** Case analysis on the ways loading can end, for goals that show the
    right-hand side of [load_datasets_cases]. *)
Ltac loading_ends :=
  cbv zeta;
  repeat match goal with
    | |- context [match stored ?w with _ => _ end] => destruct (stored w)
    | |- context [match split_lengths ?r ?n with _ => _ end] =>
        destruct (split_lengths r n) as [[? ?]|?]
    | |- context [if (?a =? ?b)%nat then _ else _] => destruct (a =? b)%nat
    end.

(** Loading the datasets leaves the transform pipelines alone. *)
Lemma load_datasets_frame_transforms (st : State) :
  train_transforms (self (fst (load_datasets st))) = train_transforms (self st) /\
  test_transforms (self (fst (load_datasets st))) = test_transforms (self st).
Proof.
  destruct (nothing_loaded (self st)) eqn:Hnl.
  - rewrite (load_datasets_cases st Hnl). loading_ends; repeat split.
  - rewrite (load_datasets_skip st Hnl). repeat split.
Qed.

(** Loading the datasets assigns the partitions only when it returns. *)
Lemma load_datasets_Raise_partitions (st : State) (o : origin) (e : exn) :
  snd (load_datasets st) = Raise o e ->
  data_train (self (fst (load_datasets st))) = data_train (self st) /\
  data_val (self (fst (load_datasets st))) = data_val (self st) /\
  data_test (self (fst (load_datasets st))) = data_test (self st).
Proof.
  destruct (nothing_loaded (self st)) eqn:Hnl.
  - rewrite (load_datasets_cases st Hnl). loading_ends; cbn [fst snd];
      intros H; try discriminate H; repeat split.
  - rewrite (load_datasets_skip st Hnl). discriminate.
Qed.

(** The batch-size step touches the two per-device sizes only. *)
Lemma adjust_batch_sizes_frame (st : State) :
  hparams (self (fst (adjust_batch_sizes st))) = hparams (self st) /\
  trainer (self (fst (adjust_batch_sizes st))) = trainer (self st) /\
  train_transforms (self (fst (adjust_batch_sizes st))) = train_transforms (self st) /\
  test_transforms (self (fst (adjust_batch_sizes st))) = test_transforms (self st) /\
  data_train (self (fst (adjust_batch_sizes st))) = data_train (self st) /\
  data_val (self (fst (adjust_batch_sizes st))) = data_val (self st) /\
  data_test (self (fst (adjust_batch_sizes st))) = data_test (self st) /\
  world (fst (adjust_batch_sizes st)) = world st.
Proof.
  rewrite adjust_batch_sizes_cases.
  destruct (trainer (self st)) as [tr|] eqn:Htr; [|repeat split; exact Htr].
  cbv zeta. destruct (world_size tr =? 0); [repeat split; exact Htr|].
  destruct (_ mod _ =? 0); repeat split; exact Htr.
Qed.

(** [setup] is the batch-size step followed, if that returns, by the
    loading step. *)
Lemma setup_steps (stage : option string) (st : State) :
  (snd (adjust_batch_sizes st) = Return tt /\
   setup stage st = load_datasets (fst (adjust_batch_sizes st))) \/
  ((exists o e, snd (adjust_batch_sizes st) = Raise o e) /\
   setup stage st = adjust_batch_sizes st /\ fst (adjust_batch_sizes st) = st).
Proof.
  rewrite setup_eq, adjust_batch_sizes_cases.
  destruct (trainer (self st)) as [tr|]; [|left; split; reflexivity].
  cbv zeta. destruct (world_size tr =? 0).
  - right. split; [do 2 eexists; reflexivity|]. split; reflexivity.
  - destruct (_ mod _ =? 0).
    + left. split; reflexivity.
    + right. split; [do 2 eexists; reflexivity|]. split; reflexivity.
Qed.

(** [setup] leaves the hyperparameters and the trainer in place. *)
Lemma setup_frame (stage : option string) (st : State) :
  hparams (self (fst (setup stage st))) = hparams (self st) /\
  trainer (self (fst (setup stage st))) = trainer (self st).
Proof.
  destruct (adjust_batch_sizes_frame st) as (Ah & At & _).
  destruct (setup_steps stage st) as [[_ ->]|[_ [-> ->]]]; [|split; reflexivity].
  destruct (load_datasets_frame (fst (adjust_batch_sizes st))) as (-> & -> & _).
  split; assumption.
Qed.

(** X5: [setup] never changes the hyperparameters, the attached
    trainer or the two transform pipelines of the module. *)
Theorem setup_keeps_configuration (stage : option string) (st : State) :
  hparams (self (fst (setup stage st))) = hparams (self st) /\
  trainer (self (fst (setup stage st))) = trainer (self st) /\
  train_transforms (self (fst (setup stage st))) = train_transforms (self st) /\
  test_transforms (self (fst (setup stage st))) = test_transforms (self st).
Proof.
  destruct (adjust_batch_sizes_frame st) as (Ah & At & Atr & Ate & _).
  destruct (setup_steps stage st) as [[_ ->]|[_ [-> ->]]]; [|repeat split].
  destruct (load_datasets_frame (fst (adjust_batch_sizes st))) as (-> & -> & _).
  destruct (load_datasets_frame_transforms (fst (adjust_batch_sizes st))) as (-> & ->).
  repeat split; assumption.
Qed.

(** The per-device sizes [setup] leaves behind, by the trainer and the
    remainder. *)
Lemma setup_batch_sizes (stage : option string) (st : State) :
  train_batch_size_per_device (self (fst (setup stage st)))
    = train_batch_size_per_device (self (fst (adjust_batch_sizes st))) /\
  test_batch_size_per_device (self (fst (setup stage st)))
    = test_batch_size_per_device (self (fst (adjust_batch_sizes st))).
Proof.
  destruct (setup_steps stage st) as [[_ ->]|[_ [-> _]]]; [|split; reflexivity].
  now destruct (load_datasets_frame (fst (adjust_batch_sizes st))) as (_ & _ & -> & ->).
Qed.

(** X4: a second [setup] leaves the per-device batch sizes of the first
    one as they are: the sizes are derived from the configured ones
    every time, so the division by the number of devices does not
    compound, however the two calls end. *)
Theorem setup_batch_sizes_stable (stage1 stage2 : option string) (st : State) :
  train_batch_size_per_device (self (fst (setup stage2 (fst (setup stage1 st)))))
    = train_batch_size_per_device (self (fst (setup stage1 st))) /\
  test_batch_size_per_device (self (fst (setup stage2 (fst (setup stage1 st)))))
    = test_batch_size_per_device (self (fst (setup stage1 st))).
Proof.
  destruct (setup_frame stage1 st) as (Hh & Ht).
  destruct (setup_batch_sizes stage2 (fst (setup stage1 st))) as (-> & ->).
  rewrite (adjust_batch_sizes_cases (fst (setup stage1 st))), Hh, Ht.
  destruct (setup_batch_sizes stage1 st) as (E1 & E2).
  rewrite (adjust_batch_sizes_cases st) in E1, E2.
  destruct (trainer (self st)) as [tr|]; cbv zeta in *.
  - destruct (world_size tr =? 0).
    + cbn [fst] in *. now rewrite E1, E2.
    + destruct (_ mod _ =? 0); cbn [fst] in *; now rewrite E1, E2.
  - cbn [fst] in *. now rewrite E1, E2.
Qed.

(** X6: on a freshly constructed module, which has no trainer, [setup]
    keeps the per-device batch sizes equal to the configured ones and
    never raises its own error; when it returns, the three partitions
    are built from the configured pipelines, and when it does not, they
    are still [None]. *)
Theorem setup_on_fresh_module
    (split : Float * Float) (train_bs test_bs workers : Z)
    (train_tf test_tf : option Compose) (pin : bool)
    (w : World) (stage : option string) :
  let st := mkState (DataModule_init split train_bs test_bs workers train_tf test_tf pin) w in
  train_batch_size_per_device (self (fst (setup stage st))) = train_bs /\
  test_batch_size_per_device (self (fst (setup stage st))) = test_bs /\
  (forall e, snd (setup stage st) <> Raise Explicit e) /\
  (snd (setup stage st) = Return tt ->
   exists d1 d2 d3,
     data_train (self (fst (setup stage st))) = Some d1 /\
     data_val (self (fst (setup stage st))) = Some d2 /\
     data_test (self (fst (setup stage st))) = Some d3 /\
     mode d1 = "train" /\ transform d1 = train_tf /\
     mode d2 = "val" /\ transform d2 = test_tf /\
     mode d3 = "test" /\ transform d3 = test_tf) /\
  (forall o e, snd (setup stage st) = Raise o e ->
     data_train (self (fst (setup stage st))) = None /\
     data_val (self (fst (setup stage st))) = None /\
     data_test (self (fst (setup stage st))) = None).
Proof.
  intros st.
  assert (Hnl : nothing_loaded (self st) = true) by reflexivity.
  assert (Hrun : setup stage st = load_datasets st) by reflexivity.
  rewrite Hrun.
  destruct (load_datasets_frame st) as (_ & _ & Htr & Hte).
  split; [exact Htr|]. split; [exact Hte|].
  split; [intros e; apply load_datasets_not_explicit|].
  split.
  - intros Hret.
    destruct (setup_Return_loaded stage st (fst (load_datasets st)))
      as (samples & l1 & l2 & _ & _ & _ & Hd); [|exact Hnl|].
    { rewrite Hrun. destruct (load_datasets st) as [st' out]. cbn [fst snd] in *.
      now rewrite Hret. }
    cbv zeta in Hd. destruct Hd as (H1 & H2 & H3 & _).
    do 3 eexists. split; [exact H1|]. split; [exact H2|]. split; [exact H3|].
    repeat split.
  - intros o e Hraise.
    now destruct (load_datasets_Raise_partitions st o e Hraise) as (-> & -> & ->).
Qed.

(** X7: when [setup] ends in an exception, whether its own or one of
    the remainder operator, of [BaseDataset()] or of [random_split],
    the three partitions are the ones of before the call: they are
    assigned together or not at all. *)
Theorem setup_exception_keeps_partitions
    (stage : option string) (st : State) (o : origin) (e : exn) :
  snd (setup stage st) = Raise o e ->
  data_train (self (fst (setup stage st))) = data_train (self st) /\
  data_val (self (fst (setup stage st))) = data_val (self st) /\
  data_test (self (fst (setup stage st))) = data_test (self st).
Proof.
  destruct (adjust_batch_sizes_frame st) as (_ & _ & _ & _ & A1 & A2 & A3 & _).
  destruct (setup_steps stage st) as [[_ ->]|[_ [-> ->]]]; [|repeat split].
  intros H.
  destruct (load_datasets_Raise_partitions _ o e H) as (-> & -> & ->).
  repeat split; assumption.
Qed.

(** X8: once [setup] has run with [W > 0] devices dividing the
    configured training batch size [B], and the number of workers is
    not negative:
    - with [B] positive and a non-empty training dataset loaded,
      [train_dataloader] builds its loader on it with batch size
      [B // W], shuffling and [collate_fn], so that the [W] devices
      together see exactly [B] items per step;
    - with the configured evaluation batch size [T] at least [W],
      [val_dataloader] and [test_dataloader] build their loaders on
      [data_val] and [data_test] with the same positive batch size
      [T // W], without shuffling and without [collate_fn], and the [W]
      devices together see fewer than [W] items less than [T];
    - with [T] below [W], which [setup] lets through, the batch size
      is not positive and both methods end in the [ValueError] of
      [DataLoader];
    - with no training dataset, [train_dataloader] ends in the
      [TypeError] of [len(None)].
    None of the methods changes the state. *)
Theorem dataloaders_after_setup (stage : option string) (st : State) (tr : Trainer) :
  trainer (self st) = Some tr ->
  0 < world_size tr ->
  (world_size tr | train_batch_size (hparams (self st))) ->
  0 <= num_workers (hparams (self st)) ->
  let st' := fst (setup stage st) in
  let B := train_batch_size (hparams (self st)) in
  let T := test_batch_size (hparams (self st)) in
  let W := world_size tr in
  (forall d : CervicalDataset,
     0 < B -> data_train (self st') = Some d -> CervicalDataset_len d <> 0%nat ->
     exists lt : DataLoader,
       train_dataloader st' = (st', Return lt) /\
       W * dl_batch_size lt = B /\
       dl_shuffle lt = true /\ dl_collate_fn lt = Some collate_fn /\
       dl_dataset lt = Some d) /\
  (W <= T ->
   exists lv le : DataLoader,
     val_dataloader st' = (st', Return lv) /\
     test_dataloader st' = (st', Return le) /\
     0 < dl_batch_size lv /\
     0 <= T - W * dl_batch_size lv < W /\
     dl_batch_size le = dl_batch_size lv /\
     dl_shuffle lv = false /\ dl_shuffle le = false /\
     dl_collate_fn lv = None /\ dl_collate_fn le = None /\
     dl_dataset lv = data_val (self st') /\
     dl_dataset le = data_test (self st')) /\
  (T < W ->
   exists msg : string,
     val_dataloader st' = (st', Raise Propagated (ValueError msg)) /\
     test_dataloader st' = (st', Raise Propagated (ValueError msg))) /\
  (data_train (self st') = None ->
   exists msg : string,
     train_dataloader st' = (st', Raise Propagated (TypeError msg))).
Proof.
  intros Htr HW Hdiv Hnw st' B T W.
  destruct (setup_batch_sizes stage st) as (E1 & E2).
  rewrite adjust_batch_sizes_cases, Htr in E1, E2. cbv zeta in E1, E2.
  assert (Hmod : B mod W = 0) by (apply Z.mod_divide; [subst W; lia | exact Hdiv]).
  fold B T W in E1, E2.
  replace (W =? 0) with false in E1, E2 by (symmetry; apply Z.eqb_neq; subst W; lia).
  rewrite Hmod in E1, E2. cbn in E1, E2.
  destruct (setup_frame stage st) as (Hh & _).
  pose proof (Z.div_mod B W ltac:(subst W; lia)) as HB.
  pose proof (Z.div_mod T W ltac:(subst W; lia)) as HT.
  pose proof (Z.mod_pos_bound T W ltac:(subst W; lia)) as HTm.
  assert (Hw : (num_workers (hparams (self st)) <? 0) = false) by (apply Z.ltb_ge; lia).
  unfold train_dataloader, val_dataloader, test_dataloader, bind, get_self, call.
  fold st'. fold st' in E1, E2, Hh.
  split; [|split; [|split]].
  - intros d HBpos Hd Hlen.
    unfold DataLoader_new, RandomSampler_new. rewrite E1, Hh, Hw, Hd.
    replace (CervicalDataset_len d =? 0)%nat with false
      by (symmetry; apply Nat.eqb_neq; exact Hlen).
    cbn [bindR].
    replace (B / W <=? 0) with false by (symmetry; apply Z.leb_gt; nia).
    eexists. split; [reflexivity|]. cbn [dl_batch_size dl_shuffle dl_collate_fn dl_dataset].
    repeat split. lia.
  - intros HTW. rewrite !DataLoader_new_plain, E2, Hh, Hw.
    replace (T / W <=? 0) with false by (symmetry; apply Z.leb_gt; nia).
    do 2 eexists. split; [reflexivity|]. split; [reflexivity|].
    cbn [dl_batch_size dl_shuffle dl_collate_fn dl_dataset].
    repeat split; nia.
  - intros HTW. rewrite !DataLoader_new_plain, E2, Hh, Hw.
    replace (T / W <=? 0) with true by (symmetry; apply Z.leb_le; nia).
    eexists. split; reflexivity.
  - intros Hd.
    unfold DataLoader_new, RandomSampler_new. rewrite Hh, Hw, Hd. cbn [bindR].
    eexists. reflexivity.
Qed.

(** X9: when a partition attribute already holds a non-empty dataset,
    [setup] builds no object and assigns no partition; without a
    trainer it then does nothing at all. *)
Theorem setup_loaded_builds_nothing (stage : option string) (st : State) :
  nothing_loaded (self st) = false ->
  world (fst (setup stage st)) = world st /\
  data_train (self (fst (setup stage st))) = data_train (self st) /\
  data_val (self (fst (setup stage st))) = data_val (self st) /\
  data_test (self (fst (setup stage st))) = data_test (self st) /\
  (forall e, snd (setup stage st) <> Raise Propagated (OSError e)) /\
  (trainer (self st) = None -> setup stage st = (st, Return tt)).
Proof.
  intros Hnl.
  destruct (adjust_batch_sizes_frame st) as (_ & At & _ & _ & A1 & A2 & A3 & Aw).
  assert (Hnl' : nothing_loaded (self (fst (adjust_batch_sizes st))) = false)
    by (unfold nothing_loaded in *; now rewrite A1, A2, A3).
  repeat split.
  1-4: destruct (setup_steps stage st) as [[_ ->]|[_ [-> ->]]]; [|reflexivity];
       rewrite (load_datasets_skip _ Hnl'); assumption.
  - intros e. rewrite setup_eq, adjust_batch_sizes_cases.
    destruct (trainer (self st)) as [tr|].
    + cbv zeta. destruct (world_size tr =? 0); [discriminate|].
      destruct (_ mod _ =? 0); [|discriminate].
      rewrite load_datasets_skip by exact Hnl. discriminate.
    + rewrite load_datasets_skip by exact Hnl. discriminate.
  - intros Hno. rewrite setup_eq, adjust_batch_sizes_cases, Hno.
    now apply load_datasets_skip.
Qed.

End LifecycleFacts.

(** ** The landmark overlay of [main] *)

Section LandmarkFacts.
Context {D : Dtype} {C : Comparable}.

(** The scan returns a position it has seen. *)
Lemma argmax_scan_bounds (cells : list elt) :
  forall (best : elt) (best_i i : Z),
  0 <= best_i < i ->
  0 <= argmax_scan cells best best_i i < i + Z.of_nat (length cells).
Proof.
  induction cells as [|y rest IH]; intros best best_i i Hb; cbn [argmax_scan length].
  - lia.
  - destruct (cell_gtb y best).
    + specialize (IH y i (i + 1)). lia.
    + specialize (IH best best_i (i + 1)). lia.
Qed.

Lemma np_argmax_bounds (cells : list elt) :
  cells <> [] ->
  exists k, np_argmax cells = Ok k /\ 0 <= k < Z.of_nat (length cells).
Proof.
  destruct cells as [|x rest]; [congruence|]. intros _.
  eexists. split; [reflexivity|].
  pose proof (argmax_scan_bounds rest x 0 1). cbn [length]. lia.
Qed.

(** When the comparison is irreflexive and transitive, no cell is
    greater than the one the scan returns. *)
Lemma argmax_scan_max
    (Hirr : forall a, cell_gtb a a = false)
    (Htrans : forall a b c, cell_gtb a b = true -> cell_gtb b c = true -> cell_gtb a c = true)
    (cells : list elt) :
  forall (seen : list elt) (best : elt) (best_i : Z),
  0 <= best_i ->
  nth_error (seen ++ cells) (Z.to_nat best_i) = Some best ->
  (forall z, In z seen -> cell_gtb z best = false) ->
  exists peak,
    nth_error (seen ++ cells)
      (Z.to_nat (argmax_scan cells best best_i (Z.of_nat (length seen)))) = Some peak /\
    forall z, In z (seen ++ cells) -> cell_gtb z peak = false.
Proof.
  induction cells as [|y rest IH]; intros seen best best_i Hpos Hbest Hseen.
  - cbn [argmax_scan]. exists best. split; [assumption|].
    rewrite app_nil_r. assumption.
  - cbn [argmax_scan].
    replace (seen ++ y :: rest) with ((seen ++ [y]) ++ rest) in *
      by (now rewrite <- app_assoc).
    replace (Z.of_nat (length seen) + 1) with (Z.of_nat (length (seen ++ [y])))
      by (rewrite length_app; cbn [length]; lia).
    destruct (cell_gtb y best) eqn:Hy.
    + apply IH.
      * lia.
      * rewrite Nat2Z.id, <- app_assoc. cbn [app].
        now rewrite nth_error_app2, Nat.sub_diag by lia.
      * intros z Hz. apply in_app_or in Hz. destruct Hz as [Hz|[<-|[]]].
        -- destruct (cell_gtb z y) eqn:Hzy; [|reflexivity].
           rewrite <- (Hseen z Hz). symmetry. now apply Htrans with y.
        -- apply Hirr.
    + apply IH; [assumption|assumption|].
      intros z Hz. apply in_app_or in Hz. destruct Hz as [Hz|[<-|[]]].
      * now apply Hseen.
      * assumption.
Qed.

Lemma np_argmax_max
    (Hirr : forall a, cell_gtb a a = false)
    (Htrans : forall a b c, cell_gtb a b = true -> cell_gtb b c = true -> cell_gtb a c = true)
    (cells : list elt) (k : Z) :
  np_argmax cells = Ok k ->
  exists peak, nth_error cells (Z.to_nat k) = Some peak /\
               forall z, In z cells -> cell_gtb z peak = false.
Proof.
  destruct cells as [|x rest]; [discriminate|].
  cbn [np_argmax]. intros H. injection H as <-.
  apply (argmax_scan_max Hirr Htrans rest [x] x 0).
  - lia.
  - reflexivity.
  - intros z [<-|[]]. apply Hirr.
Qed.

(** A position in a matrix of [h] rows and [w] columns unravels to its
    row and its column. *)
Lemma np_unravel_index_2d (k h w : Z) :
  0 <= k < h * w -> 0 < w ->
  np_unravel_index k [h; w] = Ok [k / w; k mod w] /\
  0 <= k / w < h /\ 0 <= k mod w < w /\ k / w * w + k mod w = k.
Proof.
  intros Hk Hw.
  assert (Hq : 0 <= k / w < h).
  { split; [apply Z.div_pos; lia|]. apply Z.div_lt_upper_bound; lia. }
  pose proof (Z.mod_pos_bound k w Hw) as Hm.
  pose proof (Z.div_mod k w ltac:(lia)) as Hdm.
  unfold np_unravel_index, numel. cbn [fold_right fst snd].
  replace (0 <=? k) with true by (symmetry; apply Z.leb_le; lia).
  replace (k <? h * (w * 1)) with true by (symmetry; apply Z.ltb_lt; lia).
  cbn [andb]. rewrite (Z.mod_small (k / w) h) by lia.
  repeat split; try lia.
Qed.

(** One channel of a heatmap of [c] channels, [h] rows and [w] columns. *)
Lemma getitem_int_channel (heatmap : Tensor) (c h w : Z) (i : nat) :
  has_size [c; h; w] heatmap ->
  Z.of_nat i < c ->
  exists ch, getitem_int heatmap (Z.of_nat i) = Ok ch /\
             shape ch = [h; w] /\ Z.of_nat (length (data ch)) = h * w.
Proof.
  intros [Hshape Hwf] Hi.
  unfold wf_tensor in Hwf. rewrite Hshape, andb_true_iff, Z.eqb_eq in Hwf.
  destruct Hwf as [Hdims Hlen]. cbn [forallb] in Hdims.
  rewrite !andb_true_iff, !Z.leb_le in Hdims. destruct Hdims as (Hc & Hh & Hw & _).
  unfold getitem_int. rewrite Hshape.
  replace (Z.of_nat i <? 0) with false by (symmetry; apply Z.ltb_ge; lia).
  replace (0 <=? Z.of_nat i) with true by (symmetry; apply Z.leb_le; lia).
  replace (Z.of_nat i <? c) with true by (symmetry; apply Z.ltb_lt; lia).
  cbn [andb]. eexists. split; [reflexivity|]. cbn [shape data]. split; [reflexivity|].
  unfold numel in *. cbn [fold_right] in *. rewrite Z.mul_1_r in *.
  rewrite length_firstn, length_skipn. nia.
Qed.

Lemma landmark_loop_spec (heatmap : Tensor) (c h w : Z) :
  has_size [c; h; w] heatmap -> 0 < h -> 0 < w ->
  forall (n a : nat), Z.of_nat (a + n) <= c ->
  exists pts,
    landmark_loop heatmap (map Z.of_nat (seq a n)) = Ok pts /\
    length pts = n /\
    forall j p, nth_error pts j = Some p -> channel_center heatmap h w (a + j) p.
Proof.
  intros Hsz Hh Hw. induction n as [|n IH]; intros a Ha.
  - exists []. repeat split. intros [|j] p H; discriminate.
  - destruct (getitem_int_channel heatmap c h w a Hsz ltac:(lia)) as (ch & Hch & Hshape & Hlen).
    destruct (np_argmax_bounds (data ch)) as (k & Hk & Hkb).
    { intros E. rewrite E in Hlen. cbn [length] in Hlen. nia. }
    destruct (np_unravel_index_2d k h w ltac:(lia) Hw) as (Hun & _).
    destruct (IH (S a) ltac:(lia)) as (pts & Hpts & Hlenp & Hrel).
    exists ((k mod w * 4, k / w * 4) :: pts).
    cbn [seq map landmark_loop]. rewrite Hch. cbn [bindR].
    unfold landmark_center. rewrite Hk. cbn [bindR]. rewrite Hshape, Hun. cbn [bindR].
    rewrite Hpts. cbn [bindR length].
    split; [reflexivity|]. split; [now rewrite Hlenp|].
    intros [|j] p Hp; cbn [nth_error] in Hp.
    + injection Hp as <-. rewrite Nat.add_0_r.
      exists ch, k. repeat split; (assumption || lia).
    + replace (a + S j)%nat with (S a + j)%nat by lia. now apply Hrel.
Qed.

Lemma landmark_centers_spec (heatmap : Tensor) (c h w : Z) :
  has_size [c; h; w] heatmap -> 0 < h -> 0 < w ->
  exists pts,
    landmark_centers heatmap = Ok pts /\
    length pts = Z.to_nat c /\
    forall j p, nth_error pts j = Some p -> channel_center heatmap h w j p.
Proof.
  intros Hsz Hh Hw.
  assert (Hc : 0 <= c).
  { destruct Hsz as [Hshape Hwf]. unfold wf_tensor in Hwf.
    rewrite Hshape, andb_true_iff in Hwf. destruct Hwf as [Hdims _].
    cbn [forallb] in Hdims. rewrite !andb_true_iff, !Z.leb_le in Hdims. lia. }
  unfold landmark_centers, py_range. rewrite (proj1 Hsz).
  apply (landmark_loop_spec heatmap c h w Hsz Hh Hw (Z.to_nat c) 0%nat). lia.
Qed.

(** X10: for a heatmap of [c] channels of [h] rows and [w] columns, the
    loop of lines 123-125 draws [c] circles and raises nothing, and
    every centre lies on the grid of stride four inside an image
    of width [4 w] and height [4 h]. *)
Theorem landmark_centers_inside_image (heatmap : Tensor) (c h w : Z) :
  has_size [c; h; w] heatmap -> 0 < h -> 0 < w ->
  exists pts,
    landmark_centers heatmap = Ok pts /\
    length pts = Z.to_nat c /\
    Forall (fun p => 0 <= fst p < 4 * w /\ 0 <= snd p < 4 * h /\
                     fst p mod 4 = 0 /\ snd p mod 4 = 0) pts.
Proof.
  intros Hsz Hh Hw.
  destruct (landmark_centers_spec heatmap c h w Hsz Hh Hw) as (pts & Hrun & Hlen & Hrel).
  exists pts. split; [assumption|]. split; [assumption|].
  apply Forall_forall. intros p Hp.
  apply In_nth_error in Hp. destruct Hp as [j Hj].
  destruct (Hrel j p Hj) as (ch & k & _ & _ & Hk & _ & ->). cbn [fst snd].
  pose proof (Z.mod_pos_bound k w Hw).
  assert (0 <= k / w < h)
    by (split; [apply Z.div_pos; lia | apply Z.div_lt_upper_bound; lia]).
  rewrite !Z.mod_mul by lia. lia.
Qed.

(** X11: when the comparison of cells is irreflexive and transitive,
    the centre drawn for channel [j] sits on a cell of that channel
    that no other cell of the channel exceeds: row [y / 4], column
    [x / 4]. *)
Theorem landmark_centers_mark_maxima (heatmap : Tensor) (c h w : Z) (pts : list (Z * Z)) :
  (forall a, cell_gtb a a = false) ->
  (forall a b d, cell_gtb a b = true -> cell_gtb b d = true -> cell_gtb a d = true) ->
  has_size [c; h; w] heatmap -> 0 < h -> 0 < w ->
  landmark_centers heatmap = Ok pts ->
  forall j x y, nth_error pts j = Some (x, y) ->
  exists ch peak,
    getitem_int heatmap (Z.of_nat j) = Ok ch /\
    nth_error (data ch) (Z.to_nat (y / 4 * w + x / 4)) = Some peak /\
    forall z, In z (data ch) -> cell_gtb z peak = false.
Proof.
  intros Hirr Htrans Hsz Hh Hw Hrun j x y Hj.
  destruct (landmark_centers_spec heatmap c h w Hsz Hh Hw) as (pts' & Hrun' & _ & Hrel).
  rewrite Hrun in Hrun'. injection Hrun' as <-.
  destruct (Hrel j (x, y) Hj) as (ch & k & Hch & Hk & Hkb & _ & Hp).
  injection Hp as -> ->.
  destruct (np_argmax_max Hirr Htrans (data ch) k Hk) as (peak & Hpeak & Hmax).
  exists ch, peak. split; [assumption|]. split; [|assumption].
  rewrite !Z.div_mul by lia.
  pose proof (Z.div_mod k w ltac:(lia)).
  replace (k / w * w + k mod w) with k by lia. assumption.
Qed.

(** X12: a heatmap with at least one channel whose channels hold no
    cell (no row or no column) makes the loop raise the [ValueError] of
    [np.argmax] at the first channel, before any circle is drawn. *)
Theorem landmark_centers_empty_channels (heatmap : Tensor) (c h w : Z) :
  has_size [c; h; w] heatmap -> 0 < c -> h * w = 0 ->
  landmark_centers heatmap
    = Err (ValueError "attempt to get argmax of an empty sequence").
Proof.
  intros Hsz Hc Hhw.
  destruct (getitem_int_channel heatmap c h w 0 Hsz ltac:(lia)) as (ch & Hch & _ & Hlen).
  assert (Hd : data ch = []) by (destruct (data ch); [reflexivity|cbn [length] in Hlen; lia]).
  unfold landmark_centers, py_range. rewrite (proj1 Hsz).
  destruct (Z.to_nat c) as [|n] eqn:Hn; [lia|].
  cbn [seq map landmark_loop]. change (Z.of_nat 0) with 0 in Hch. cbn [Z.of_nat].
  rewrite Hch. cbn [bindR]. unfold landmark_center. now rewrite Hd.
Qed.

End LandmarkFacts.

(** ** More of the concrete instance *)

Section MoreExamples.
#[local] Existing Instance ex_dtype.
#[local] Existing Instance ex_opaque.
#[local] Existing Instance ex_library.
#[local] Existing Instance ex_comparable.

(** The batch of two items of the expected sizes. *)
Lemma collate_fn_well_formed_witness :
  exists images labels : Tensor,
    collate_fn ex_batch = Ok (images, labels) /\
    wf_tensor images = true /\ wf_tensor labels = true /\
    Z.of_nat (length (data images)) = 2 * Z.of_nat (length ex_batch) * 98304 /\
    Z.of_nat (length (data labels)) = 2 * Z.of_nat (length ex_batch) * 49152.
Proof. exact (collate_fn_well_formed ex_batch ex_batch_ok). Defined.

(** A process that cannot read its dataset directory: [BaseDataset()] raises. *)
Lemma setup_exception_keeps_partitions_witness :
  data_train (self (fst (setup None ex_unreadable_state)))
    = data_train (self ex_unreadable_state) /\
  data_val (self (fst (setup None ex_unreadable_state)))
    = data_val (self ex_unreadable_state) /\
  data_test (self (fst (setup None ex_unreadable_state)))
    = data_test (self ex_unreadable_state).
Proof.
  apply (setup_exception_keeps_partitions None ex_unreadable_state Propagated
           (OSError "BaseDataset: cannot read the samples")).
  reflexivity.
Defined.

(** Four devices, four workers, a training batch size of 32 and an
    evaluation batch size of 50. *)
Lemma dataloaders_after_setup_witness :
  (forall d : CervicalDataset,
     0 < 32 ->
     data_train (self (fst (setup None (ex_state 32 50 4 10)))) = Some d ->
     CervicalDataset_len d <> 0%nat ->
     exists lt : DataLoader,
       train_dataloader (fst (setup None (ex_state 32 50 4 10)))
         = (fst (setup None (ex_state 32 50 4 10)), Return lt) /\
       4 * dl_batch_size lt = 32 /\
       dl_shuffle lt = true /\ dl_collate_fn lt = Some collate_fn /\
       dl_dataset lt = Some d) /\
  (4 <= 50 ->
   exists lv le : DataLoader,
     val_dataloader (fst (setup None (ex_state 32 50 4 10)))
       = (fst (setup None (ex_state 32 50 4 10)), Return lv) /\
     test_dataloader (fst (setup None (ex_state 32 50 4 10)))
       = (fst (setup None (ex_state 32 50 4 10)), Return le) /\
     0 < dl_batch_size lv /\
     0 <= 50 - 4 * dl_batch_size lv < 4 /\
     dl_batch_size le = dl_batch_size lv /\
     dl_shuffle lv = false /\ dl_shuffle le = false /\
     dl_collate_fn lv = None /\ dl_collate_fn le = None /\
     dl_dataset lv = data_val (self (fst (setup None (ex_state 32 50 4 10)))) /\
     dl_dataset le = data_test (self (fst (setup None (ex_state 32 50 4 10))))) /\
  (50 < 4 ->
   exists msg : string,
     val_dataloader (fst (setup None (ex_state 32 50 4 10)))
       = (fst (setup None (ex_state 32 50 4 10)), Raise Propagated (ValueError msg)) /\
     test_dataloader (fst (setup None (ex_state 32 50 4 10)))
       = (fst (setup None (ex_state 32 50 4 10)), Raise Propagated (ValueError msg))) /\
  (data_train (self (fst (setup None (ex_state 32 50 4 10)))) = None ->
   exists msg : string,
     train_dataloader (fst (setup None (ex_state 32 50 4 10)))
       = (fst (setup None (ex_state 32 50 4 10)), Raise Propagated (TypeError msg))).
Proof.
  apply (dataloaders_after_setup None (ex_state 32 50 4 10) (mkTrainer 4)).
  - reflexivity.
  - reflexivity.
  - exists 8. reflexivity.
  - discriminate.
Defined.

(** The loaded module with a per-device evaluation batch size of zero,
    as [setup] leaves it for two items on four devices: [DataLoader]
    refuses to build the validation loader. *)
Example val_dataloader_zero_batch_size :
  val_dataloader
    (mkState (set_test_batch_size_per_device 0 (self ex_loaded_state)) (world ex_loaded_state))
  = (mkState (set_test_batch_size_per_device 0 (self ex_loaded_state)) (world ex_loaded_state),
     Raise Propagated
       (ValueError "batch_size should be a positive integer value, but got batch_size=0")).
Proof. reflexivity. Qed.

(** The training loader before any dataset is loaded. *)
Example train_dataloader_before_setup :
  train_dataloader (ex_state 32 64 4 10)
  = (ex_state 32 64 4 10,
     Raise Propagated (TypeError "object of type 'NoneType' has no len()")).
Proof. reflexivity. Qed.

(** The module whose ten samples are loaded. *)
Lemma setup_loaded_builds_nothing_witness :
  world (fst (setup None ex_loaded_state)) = world ex_loaded_state /\
  data_train (self (fst (setup None ex_loaded_state))) = data_train (self ex_loaded_state) /\
  data_val (self (fst (setup None ex_loaded_state))) = data_val (self ex_loaded_state) /\
  data_test (self (fst (setup None ex_loaded_state))) = data_test (self ex_loaded_state) /\
  (forall e, snd (setup None ex_loaded_state) <> Raise Propagated (OSError e)) /\
  (trainer (self ex_loaded_state) = None -> setup None ex_loaded_state = (ex_loaded_state, Return tt)).
Proof.
  apply (setup_loaded_builds_nothing None ex_loaded_state).
  reflexivity.
Defined.

(** Two channels of two rows and three columns. *)
Lemma landmark_centers_inside_image_witness :
  exists pts,
    landmark_centers ex_heatmap = Ok pts /\
    length pts = Z.to_nat 2 /\
    Forall (fun p => 0 <= fst p < 4 * 3 /\ 0 <= snd p < 4 * 2 /\
                     fst p mod 4 = 0 /\ snd p mod 4 = 0) pts.
Proof.
  apply (landmark_centers_inside_image ex_heatmap 2 2 3).
  - split; reflexivity.
  - reflexivity.
  - reflexivity.
Defined.

Lemma ex_gtb_irreflexive (a : Z) : (a >? a) = false.
Proof. rewrite Z.gtb_ltb. apply Z.ltb_irrefl. Qed.

Lemma ex_gtb_transitive (a b d : Z) :
  (a >? b) = true -> (b >? d) = true -> (a >? d) = true.
Proof. rewrite !Z.gtb_ltb, !Z.ltb_lt. lia. Qed.

(** The second channel, whose first maximum is its first cell. *)
Lemma landmark_centers_mark_maxima_witness :
  exists ch peak,
    getitem_int ex_heatmap (Z.of_nat 1) = Ok ch /\
    nth_error (data ch) (Z.to_nat (0 / 4 * 3 + 0 / 4)) = Some peak /\
    forall z, In z (data ch) -> cell_gtb z peak = false.
Proof.
  apply (landmark_centers_mark_maxima ex_heatmap 2 2 3 [(4, 0); (0, 0)]).
  - exact ex_gtb_irreflexive.
  - exact ex_gtb_transitive.
  - split; reflexivity.
  - reflexivity.
  - reflexivity.
  - reflexivity.
  - reflexivity.
Defined.

(** One channel without rows. *)
Lemma landmark_centers_empty_channels_witness :
  landmark_centers ex_flat_heatmap
    = Err (ValueError "attempt to get argmax of an empty sequence").
Proof.
  apply (landmark_centers_empty_channels ex_flat_heatmap 1 0 3).
  - split; reflexivity.
  - reflexivity.
  - reflexivity.
Defined.

End MoreExamples.
